(** * Abfuhrkalender: a shallow embedding of [Abfuhrkalender.ino]

    The sketch fetches a waste-collection calendar (.ics), stores its events
    in a fixed array, and lights three NeoPixels according to the events of
    the current and the next day.

    Conventions of the embedding:
    - C arrays are lists of their declared length; an access outside the
      list is undefined behaviour in C++ and is reported here as
      [OutOfBounds] (the computation stops there).
    - [uint8_t] fields are [Z] with the wrap-around written out ([to_uint8]);
      [int] counters that the code only increments from zero up to an array
      length are [nat]; [struct tm] fields are [Z].
    - Arduino [String] is [string]; [c_str()] cuts at the first NUL.
    - [Serial] output is modelled for [parseIcsLine] only (its diagnostics
      are part of the calendar contract); the remaining prints are omitted.
    - The network and clock libraries are inputs: what [HTTPClient]
      returned, the successive results of [readStringUntil], and the
      broken-down times stored by [localtime]. *)

From Stdlib Require Import ZArith String Ascii DecimalString.
From stdpp Require Import base tactics option list numbers.

Open Scope string_scope.
Open Scope Z_scope.
Open Scope nat_scope.

(** ** Results of array accesses *)

Inductive outcome (A : Type) : Type :=
  | Done (a : A)
  | OutOfBounds (array : string) (index : nat).
Arguments Done {A} a.
Arguments OutOfBounds {A} array index.

#[global] Instance outcome_ret : MRet outcome := fun A a => Done a.
#[global] Instance outcome_bind : MBind outcome := fun A B f m =>
  match m with
  | Done a => f a
  | OutOfBounds array index => OutOfBounds array index
  end.

(** [a[i]] as an rvalue. *)
Definition array_read {A} (name : string) (a : list A) (i : nat) : outcome A :=
  match a !! i with
  | Some x => Done x
  | None => OutOfBounds name i
  end.

(** [a[i].field = v], given as the function that sets the field. *)
Definition array_modify {A} (name : string) (f : A -> A) (a : list A) (i : nat)
  : outcome (list A) :=
  if decide (i < length a) then Done (alter f i a) else OutOfBounds name i.

(** ** Characters and strings *)

Definition isdigit (c : ascii) : bool :=
  let n := nat_of_ascii c in (48 <=? n) && (n <=? 57).

Definition isspace (c : ascii) : bool :=
  let n := nat_of_ascii c in (n =? 32) || ((9 <=? n) && (n <=? 13)).

Fixpoint c_str (s : string) : string :=
  match s with
  | EmptyString => EmptyString
  | String c s' => if Ascii.eqb c zero then EmptyString else String c (c_str s')
  end.

(** [strstr(haystack, needle)]: offset of the first occurrence, [None] for
    the null pointer. *)
Fixpoint strstr (haystack needle : string) : option nat :=
  if String.prefix needle haystack then Some 0
  else match haystack with
       | EmptyString => None
       | String _ rest => S <$> strstr rest needle
       end.

(** The truth value of [strstr(a.c_str(), b.c_str())] in a condition. *)
Definition contains (a b : string) : bool :=
  bool_decide (is_Some (strstr (c_str a) (c_str b))).

(** [String::substring(left, right)]. *)
Definition String_substring (s : string) (left right : nat) : string :=
  let lo := Nat.min left right in
  let hi := Nat.max left right in
  String.substring lo (hi - lo) s.

Fixpoint skip_spaces (s : string) : string :=
  match s with
  | String c s' => if isspace c then skip_spaces s' else s
  | EmptyString => EmptyString
  end.

Fixpoint digits_value (acc : Z) (s : string) : Z :=
  match s with
  | String c s' =>
      if isdigit c
      then digits_value (10 * acc + (Z.of_nat (nat_of_ascii c) - 48))%Z s'
      else acc
  | EmptyString => acc
  end.

(** [atoi]; every call site passes at most four characters, so the value
    fits an [int]. *)
Definition atoi (s : string) : Z :=
  match skip_spaces s with
  | String "-" s' => (- digits_value 0 s')%Z
  | String "+" s' => digits_value 0 s'
  | s' => digits_value 0 s'
  end.

Definition to_uint8 (z : Z) : Z := (z mod 256)%Z.

(** [String::trim()]: leading and trailing [isspace] characters removed. *)
Definition String_trim (s : string) : string :=
  let front := skip_spaces s in
  string_of_list_ascii
    (rev (list_ascii_of_string
            (skip_spaces (string_of_list_ascii (rev (list_ascii_of_string front)))))).

(** [std::all_of(line.begin(), line.end(), ::isdigit)]. *)
Definition all_digits (s : string) : bool :=
  forallb isdigit (list_ascii_of_string s).

(** ** Data model *)

Inductive TrashType : Set :=
  | RESIDUAL | BIO | PLASTIC | PAPER | CHRISTMAS_TREE | COUNT.

Definition TrashType_to_nat (t : TrashType) : nat :=
  match t with
  | RESIDUAL => 0 | BIO => 1 | PLASTIC => 2 | PAPER => 3
  | CHRISTMAS_TREE => 4 | COUNT => 5
  end.

(** [static_cast<TrashType>(i)]. *)
Definition TrashType_of_nat (i : nat) : TrashType :=
  match i with
  | 0 => RESIDUAL | 1 => BIO | 2 => PLASTIC | 3 => PAPER
  | 4 => CHRISTMAS_TREE | _ => COUNT
  end.

Definition TrashTypeRed : list Z := [150; 150; 200; 1; 0]%Z.
Definition TrashTypeGreen : list Z := [150; 20; 200; 1; 255]%Z.
Definition TrashTypeBlue : list Z := [140; 0; 0; 255; 0]%Z.

Definition eventTrigger : string := "DTSTART;VALUE=DATE:".
Definition eventTypeTrigger : string := "SUMMARY:".
Definition TrashTypeStrings : list string :=
  ["Restabfall"; "Bioabfall"; "Wertstoff"; "Papiertonne"; "Tannenbaum"].

Module Event.
Record t : Set := mk { type : TrashType; year : Z; month : Z; day : Z }.
Definition set_type (v : TrashType) (e : t) : t := mk v (year e) (month e) (day e).
Definition set_year (v : Z) (e : t) : t := mk (type e) v (month e) (day e).
Definition set_month (v : Z) (e : t) : t := mk (type e) (year e) v (day e).
Definition set_day (v : Z) (e : t) : t := mk (type e) (year e) (month e) v.
End Event.

Definition maxNumberOfEvents : nat := 100.

Inductive TodaysEventDay : Set := TODAY | TOMORROW.

Module TodaysEvent.
Record t : Set := mk { type : TrashType; day : TodaysEventDay }.
Definition set_type (v : TrashType) (e : t) : t := mk v (day e).
Definition set_day (v : TodaysEventDay) (e : t) : t := mk (type e) v.
End TodaysEvent.

(** The globals of the calendar side: [events], [numberOfEvents] and the
    function-static [trigger] of [parseIcsLine]. *)
Record Calendar : Set := mkCalendar {
  events : list Event.t;
  numberOfEvents : nat;
  trigger : bool
}.

(** Zero-initialised globals at program start. *)
Definition initialCalendar : Calendar :=
  mkCalendar (replicate maxNumberOfEvents (Event.mk RESIDUAL 0 0 0)) 0 false.

(** ** parseIcsLine *)

Inductive SerialItem : Set :=
  | SerialText (s : string)
  | SerialNumber (n : Z)
  | SerialNewline.

(** The [for] loop of lines 363-369 over the remaining indices. *)
Fixpoint resolveType (line : string) (indices : list nat) (evs : list Event.t) (n : nat)
  : outcome (list Event.t) :=
  match indices with
  | [] => Done evs
  | i :: rest =>
      evs ← array_modify "events" (Event.set_type COUNT) evs n;
      label ← array_read "TrashTypeStrings" TrashTypeStrings i;
      if contains line label
      then array_modify "events" (Event.set_type (TrashType_of_nat i)) evs n
      else resolveType line rest evs n
  end.

(** [parseIcsLine]: the new calendar and what the call prints. *)
Definition parseIcsLine (line : string) (c : Calendar)
  : outcome (Calendar * list SerialItem) :=
  let n := numberOfEvents c in
  if decide (maxNumberOfEvents <= n) then
    Done (c, [SerialText "Max number of events reached."; SerialNewline])
  else if contains line eventTrigger then
    let len := String.length eventTrigger in
    let year := String_substring line len (len + 4) in
    let month := String_substring line (len + 4) (len + 6) in
    let day := String_substring line (len + 6) (len + 8) in
    evs ← array_modify "events"
            (Event.set_year (to_uint8 (to_uint8 (atoi (c_str year)) - 2000)))
            (events c) n;
    evs ← array_modify "events" (Event.set_month (to_uint8 (atoi (c_str month)))) evs n;
    evs ← array_modify "events" (Event.set_day (to_uint8 (atoi (c_str day)))) evs n;
    e ← array_read "events" evs n;
    Done (mkCalendar evs n true,
          [SerialNewline;
           SerialText year; SerialText ", "; SerialNumber (Event.year e); SerialNewline;
           SerialText month; SerialText ", "; SerialNumber (Event.month e); SerialNewline;
           SerialText day; SerialText ", "; SerialNumber (Event.day e); SerialNewline])
  else if trigger c && contains line eventTypeTrigger then
    evs ← resolveType line (seq 0 (TrashType_to_nat COUNT)) (events c) n;
    e ← array_read "events" evs n;
    if decide (TrashType_to_nat (Event.type e) < TrashType_to_nat COUNT) then
      label ← array_read "TrashTypeStrings" TrashTypeStrings
                (TrashType_to_nat (Event.type e));
      Done (mkCalendar evs (S n) false, [SerialText label; SerialNewline])
    else
      Done (mkCalendar evs n false, [SerialText "Failure"; SerialNewline])
  else Done (c, []).

(** ** getIcs *)

(** What the HTTP client reported: [https.begin] failed, or [https.GET]
    returned [httpCode]; in the latter case [reads] are the successive
    results of [client->readStringUntil('\n')] up to the end of the stream.
    Once the stream is exhausted every further read times out and returns
    the empty string. *)
Inductive HttpExchange : Type :=
  | BeginFailed
  | GetReturned (httpCode : Z) (reads : list string).

Definition HTTP_CODE_OK : Z := 200%Z.

(** Locals of the read loop that survive an iteration.  [lineNumber] and
    [totalCharacters] only feed [Serial] and are left out. *)
Record ReadLoop : Set := mkReadLoop {
  oldLine : string;
  onlyDigitsInLine : bool;
  zeroLines : nat
}.

(** Lines 455-478: one iteration for a read of non-zero length.  The third
    component lists the logical lines handed to [parseIcsLine]. *)
Definition processLine (line : string) (l : ReadLoop) (c : Calendar)
  : outcome (ReadLoop * Calendar * list string) :=
  let line := String_trim line in
  let oldLine1 := if onlyDigitsInLine l then String.append (oldLine l) line else oldLine l in
  let skipOldLine := onlyDigitsInLine l in
  let onlyDigits := all_digits line in
  if negb onlyDigits then
    '(c', emitted) ←
      (if negb (String.eqb oldLine1 "")
       then '(c', _) ← parseIcsLine oldLine1 c; Done (c', [oldLine1])
       else Done (c, []));
    Done (mkReadLoop (if skipOldLine then "" else line) onlyDigits 0, c', emitted)
  else Done (mkReadLoop oldLine1 onlyDigits 0, c, []).

(** The [while] loop of lines 444-479.  The condition converts a [String]
    to [bool], which is true for every string the stream returns, so the
    loop ends only at the second consecutive zero-length read; an exhausted
    stream produces such reads by itself. *)
Fixpoint readLoop (reads : list string) (l : ReadLoop) (c : Calendar)
  : outcome Calendar :=
  match reads with
  | [] => Done c
  | line :: rest =>
      if String.length line =? 0 then
        let z := S (zeroLines l) in
        if 2 <=? z then Done c
        else readLoop rest (mkReadLoop (oldLine l) (onlyDigitsInLine l) z) c
      else
        '(l', c', _) ← processLine line l c;
        readLoop rest l' c'
  end.

(** [getIcs]; [startWifi], the TLS set-up and [stopWifi] do not touch the
    calendar. *)
Definition getIcs (http : HttpExchange) (c : Calendar) : outcome (Calendar * bool) :=
  match http with
  | BeginFailed => Done (c, false)
  | GetReturned httpCode reads =>
      if (httpCode <=? 0)%Z then Done (c, false)
      else if negb (httpCode =? HTTP_CODE_OK)%Z then Done (c, false)
      else
        c' ← readLoop reads (mkReadLoop "" false 0)
               (mkCalendar (events c) 0 (trigger c));
        if numberOfEvents c' =? 0 then Done (c', false) else Done (c', true)
  end.

(** ** The LED strip *)

Definition numOfNeoPixels : nat := 3.

Definition RGB : Set := (Z * Z * Z)%type.

(** [pixels.Color(r, g, b)]. *)
Definition Color (r g b : Z) : RGB := (r, g, b).

(** The [Adafruit_NeoPixel] object: the RAM [buffer] written by
    [setPixelColor], the colours last transmitted by [show], and the number
    of transmissions. *)
Record Pixels : Set := mkPixels {
  buffer : list RGB;
  shown : list RGB;
  shows : nat
}.

(** [setPixelColor] ignores an index outside the strip. *)
Definition setPixelColor (p : nat) (c : RGB) (px : Pixels) : Pixels :=
  mkPixels (<[p := c]> (buffer px)) (shown px) (shows px).

Definition clear (px : Pixels) : Pixels :=
  mkPixels (replicate (length (buffer px)) (Color 0 0 0)) (shown px) (shows px).

Definition show (px : Pixels) : Pixels :=
  mkPixels (buffer px) (buffer px) (S (shows px)).

(** The strip after [setup()]: cleared, pixel 0 red, shown once. *)
Definition initialPixels : Pixels :=
  show (setPixelColor 0 (Color 255 0 0)
          (clear (mkPixels (replicate numOfNeoPixels (Color 0 0 0))
                           (replicate numOfNeoPixels (Color 0 0 0)) 0))).

(** ** handleFailure *)

(** The blink loop of lines 149-161, [k] iterations left. *)
Fixpoint blink (k : nat) (toggle : bool) (px : Pixels) : Pixels :=
  match k with
  | 0 => px
  | S k' =>
      let toggle := negb toggle in
      let px := foldl (fun px p => setPixelColor p (Color (255 * Z.b2z toggle) 0 0) px)
                      px (seq 0 numOfNeoPixels) in
      blink k' toggle (show px)
  end.

Definition handleFailure (c : Calendar) (px : Pixels) : Pixels * bool :=
  if 0 <? numberOfEvents c then (px, true)
  else (blink 600 true px, false).

(** ** updateLeds *)

(** The fields of [struct tm] that the sketch compares. *)
Record tm : Set := mk_tm { tm_year : Z; tm_mon : Z; tm_mday : Z }.

Definition isEventOnDate (event : Event.t) (timeinfo : tm) : bool :=
  (Event.year event + 100 =? tm_year timeinfo)%Z
  && (Event.month event =? tm_mon timeinfo + 1)%Z
  && (Event.day event =? tm_mday timeinfo)%Z.

(** Globals and function statics of the display side.  [lastMonth] and
    [lastDay] are initialised the first time control passes their
    declaration; [None] stands for "not yet initialised". *)
Record Display : Set := mkDisplay {
  todaysEvents : list TodaysEvent.t;
  numberOfTodaysEvents : nat;
  pixels : Pixels;
  lastMonth : option Z;
  lastDay : option Z;
  firstRun : bool
}.

Definition initialDisplay : Display :=
  mkDisplay (replicate (TrashType_to_nat COUNT) (TodaysEvent.mk RESIDUAL TODAY))
            0 initialPixels None None true.

(** Locals of [updateLeds] that live across the scan loop. *)
Module Local.
Record t : Set := mk { r : Z; g : Z; b : Z; nextDay : bool; thisDay : bool }.
End Local.

(** A counted [for] loop whose body may leave the arrays. *)
Fixpoint forEach {S : Type} (body : nat -> S -> outcome S) (indices : list nat) (s : S)
  : outcome S :=
  match indices with
  | [] => Done s
  | i :: rest => s' ← body i s; forEach body rest s'
  end.

(** Lines 277-294: what the scan loop does with [events[i]] once the two
    comparisons are made.  [timeinfo] and [timeinfoNextDay] are the contents
    of the structures the two pointers designate while the loop runs. *)
Definition matchEvent (timeinfo timeinfoNextDay : tm) (ev : Event.t)
    (s : Local.t * list TodaysEvent.t * nat)
  : outcome (Local.t * list TodaysEvent.t * nat) :=
  let '(loc, te, n) := s in
  let thisDay := isEventOnDate ev timeinfo in
  let nextDay := isEventOnDate ev timeinfoNextDay in
  if thisDay || nextDay then
    te ← array_modify "todaysEvents" (TodaysEvent.set_type (Event.type ev)) te n;
    te ← (if thisDay
          then array_modify "todaysEvents" (TodaysEvent.set_day TODAY) te n
          else Done te);
    te ← (if nextDay
          then array_modify "todaysEvents" (TodaysEvent.set_day TOMORROW) te n
          else Done te);
    let index := TrashType_to_nat (Event.type ev) in
    r ← array_read "TrashTypeRed" TrashTypeRed index;
    g ← array_read "TrashTypeGreen" TrashTypeGreen index;
    b ← array_read "TrashTypeBlue" TrashTypeBlue index;
    Done (Local.mk r g b nextDay thisDay, te, S n)
  else
    Done (Local.mk (Local.r loc) (Local.g loc) (Local.b loc) nextDay thisDay, te, n).

(** Lines 270-294: the body of the scan loop at index [i]. *)
Definition scanStep (evs : list Event.t) (timeinfo timeinfoNextDay : tm) (i : nat)
    (s : Local.t * list TodaysEvent.t * nat)
  : outcome (Local.t * list TodaysEvent.t * nat) :=
  ev ← array_read "events" evs i;
  matchEvent timeinfo timeinfoNextDay ev s.

(** Lines 261-295: the Date Matcher. *)
Definition scanEvents (c : Calendar) (timeinfo timeinfoNextDay : tm)
    (te : list TodaysEvent.t)
  : outcome (Local.t * list TodaysEvent.t * nat) :=
  forEach (scanStep (events c) timeinfo timeinfoNextDay)
          (seq 0 (numberOfEvents c))
          (Local.mk 0 0 0 false false, te, 0).

(** Lines 297-317: the base rule of the Display Mapper. *)
Definition assignPixels (loc : Local.t) (te : list TodaysEvent.t) (n : nat) (px : Pixels)
  : outcome Pixels :=
  if n =? 1 then
    Done (foldl (fun px p =>
                   if negb (p =? numOfNeoPixels / 2) && Local.thisDay loc
                   then setPixelColor p (Color 0 0 0) px
                   else setPixelColor p (Color (Local.r loc) (Local.g loc) (Local.b loc)) px)
                px (seq 0 numOfNeoPixels))
  else if 1 <? n then
    forEach (fun p px =>
               e ← array_read "todaysEvents" te (p - 1);
               let index := TrashType_to_nat (TodaysEvent.type e) in
               r ← array_read "TrashTypeRed" TrashTypeRed index;
               g ← array_read "TrashTypeGreen" TrashTypeGreen index;
               b ← array_read "TrashTypeBlue" TrashTypeBlue index;
               Done (setPixelColor p (Color r g b) px))
            (seq 1 (numOfNeoPixels - 1))
            (setPixelColor 0 (Color 0 0 0) px)
  else Done (clear px).

(** Lines 319-323: the failure indicator and the transmission. *)
Definition commitPixels (lastEventUpdateSuccessful : bool) (px : Pixels) : Pixels :=
  show (if negb lastEventUpdateSuccessful
        then setPixelColor 0 (Color 255 0 0) px
        else px).

(** Lines 261-323: Date Matcher, Display Mapper and transmission for the
    two dates the pointers designate. *)
Definition refresh (lastEventUpdateSuccessful : bool) (c : Calendar)
    (timeinfo timeinfoNextDay : tm) (d : Display) : outcome Display :=
  '(loc, te, n) ← scanEvents c timeinfo timeinfoNextDay (todaysEvents d);
  px ← assignPixels loc te n (pixels d);
  Done (mkDisplay te n (commitPixels lastEventUpdateSuccessful px)
                  (lastMonth d) (lastDay d) (firstRun d)).

(** What the clock library delivers during one call of [updateLeds]:
    whether [getLocalTime] succeeded, the broken-down time [localtime]
    stores for [hackTimestampThisDay], and the one it stores for
    [timestampNextDay]. *)
Record ClockReading : Set := mkClockReading {
  getLocalTime : bool;
  localtime_thisDay : tm;
  localtime_nextDay : tm
}.

(** [updateLeds].  [localtime] returns the address of the C library's one
    static [struct tm] (C11 7.27.3; newlib keeps it in the reentrancy
    structure), which every call overwrites.  [timeinfo] and
    [timeinfoNextDay] are therefore the same pointer: [tmBuffer] is the
    object behind it, holding this day's time until line 258 and the next
    day's time from then on. *)
Definition updateLeds (lastEventUpdateSuccessful : bool) (clock : ClockReading)
    (c : Calendar) (d : Display) : outcome (Display * bool) :=
  if negb (getLocalTime clock) then Done (d, false)
  else
    let tmBuffer := localtime_thisDay clock in
    let lastMonth0 := default (tm_mon tmBuffer) (lastMonth d) in
    let lastDay0 := default (tm_mday tmBuffer) (lastDay d) in
    if negb (firstRun d) && (lastDay0 =? tm_mday tmBuffer)%Z then
      Done (mkDisplay (todaysEvents d) (numberOfTodaysEvents d) (pixels d)
                      (Some lastMonth0) (Some lastDay0) (firstRun d),
            false)
    else
      let tmBuffer := localtime_nextDay clock in
      d' ← refresh lastEventUpdateSuccessful c tmBuffer tmBuffer d;
      let newMonth := negb (lastMonth0 =? tm_mon tmBuffer)%Z in
      Done (mkDisplay (todaysEvents d') (numberOfTodaysEvents d') (pixels d')
                      (Some (tm_mon tmBuffer)) (Some (tm_mday tmBuffer)) (firstRun d),
            newMonth).

(** ** updateIcs *)

(** How a run of the retry loop stands when the recorded fetch attempts are
    used up: it has returned, or it is about to call [getIcs] again. *)
Inductive UpdateResult : Set :=
  | Returned (c : Calendar) (px : Pixels) (lastEventUpdateSuccessful : bool)
  | StillRetrying (c : Calendar) (px : Pixels).

(** The [while] loop of lines 129-137, entered with [success]; every call
    of [getIcs] takes the next exchange of [attempts]. *)
Fixpoint retryIcs (attempts : list HttpExchange) (success : bool)
    (c : Calendar) (px : Pixels) : outcome UpdateResult :=
  if success then Done (Returned c px true)
  else
    let '(px, nonCriticalFailure) := handleFailure c px in
    if nonCriticalFailure then Done (Returned c px false)
    else
      match attempts with
      | [] => Done (StillRetrying c px)
      | http :: rest =>
          '(c, success) ← getIcs http c;
          retryIcs rest success c px
      end.

Definition updateIcs (attempts : list HttpExchange) (c : Calendar) (px : Pixels)
  : outcome UpdateResult :=
  match attempts with
  | [] => Done (StillRetrying c px)
  | http :: rest =>
      '(c, success) ← getIcs http c;
      retryIcs rest success c px
  end.

(** ** loop *)

(** The function statics of [loop]. *)
Module Loop.
Record t : Set := mk { firstRun : bool; success : bool }.
End Loop.

Definition setPixels (px : Pixels) (d : Display) : Display :=
  mkDisplay (todaysEvents d) (numberOfTodaysEvents d) px
            (lastMonth d) (lastDay d) (firstRun d).

(** One pass of [loop] either completes or hangs in a retry loop of
    [updateIcs] for as long as the recorded attempts last. *)
Inductive LoopResult : Set :=
  | LoopDone (s : Loop.t) (c : Calendar) (d : Display)
  | LoopRetrying (c : Calendar) (d : Display).

(** [success = updateIcs()] as the last statement of a pass. *)
Definition loopUpdateIcs (attempts : list HttpExchange) (c : Calendar) (d : Display)
  : outcome LoopResult :=
  r ← updateIcs attempts c (pixels d);
  match r with
  | Returned c px success => Done (LoopDone (Loop.mk false success) c (setPixels px d))
  | StillRetrying c px => Done (LoopRetrying c (setPixels px d))
  end.

(** The tail of [loop] after [updateLeds]: lines 114-123. *)
Definition loopAfterLeds (attempts : list HttpExchange) (newMonth success : bool)
    (c : Calendar) (d : Display) : outcome LoopResult :=
  if newMonth then loopUpdateIcs attempts c d
  else if negb success then loopUpdateIcs attempts c d
  else Done (LoopDone (Loop.mk false success) c d).

(** One pass of [loop].  [attemptsFirst] serves the [updateIcs] of the
    first run, [attemptsAfter] the one that follows [updateLeds]; the
    delay of line 118 only passes time. *)
Definition loop (attemptsFirst attemptsAfter : list HttpExchange) (clock : ClockReading)
    (s : Loop.t) (c : Calendar) (d : Display) : outcome LoopResult :=
  r ← (if Loop.firstRun s
       then updateIcs attemptsFirst c (pixels d)
       else Done (Returned c (pixels d) (Loop.success s)));
  match r with
  | StillRetrying c px => Done (LoopRetrying c (setPixels px d))
  | Returned c px success =>
      '(d, newMonth) ← updateLeds success clock c (setPixels px d);
      loopAfterLeds attemptsAfter newMonth success c d
  end.

(** ** replaceYearInUrl *)

(** [String(int)]: the decimal digits, with a minus sign for a negative
    number. *)
Definition String_of_int (z : Z) : string := NilZero.string_of_int (Z.to_int z).

(** [s[i]] of a [String]; 0 outside the string. *)
Definition String_charAt (s : string) (i : nat) : ascii :=
  match String.get i s with
  | Some ch => ch
  | None => zero
  end.

(** [p[i] = ch] inside a C string. *)
Fixpoint poke (i : nat) (ch : ascii) (s : string) : string :=
  match s, i with
  | EmptyString, _ => EmptyString
  | String _ rest, 0 => String ch rest
  | String a rest, S i' => String a (poke i' ch rest)
  end.

(** [replaceYearInUrl].  [localTime] is what [getLocalTime] delivers.  The
    pointer [year - 2] lies before the array when ".ics" starts within the
    first two characters; that is undefined behaviour and gives [None]. *)
Definition replaceYearInUrl (url : string) (localTime : option tm) : option string :=
  match strstr url ".ics" with
  | None => Some url
  | Some k =>
      if k <? 2 then None
      else
        match localTime with
        | None => Some url
        | Some timeinfo =>
            let yearString := String_of_int (tm_year timeinfo - 1900) in
            if negb (String.length yearString =? 2) then Some url
            else Some (poke (k - 1) (String_charAt yearString 1)
                         (poke (k - 2) (String_charAt yearString 0) url))
        end
  end.

(** * Vocabulary of the properties *)

(** ** Invariants of the calendar *)

(** The array has its declared length and the count does not exceed it. *)
Definition calendar_ok (c : Calendar) : Prop :=
  length (events c) = maxNumberOfEvents /\ numberOfEvents c <= maxNumberOfEvents.

(** The Events the scan loop visits. *)
Definition storedEvents (c : Calendar) : list Event.t :=
  take (numberOfEvents c) (events c).

(** Every stored Event has one of the five categories. *)
Definition stored_types_ok (c : Calendar) : Prop :=
  Forall (fun ev => Event.type ev <> COUNT) (storedEvents c).

(** ** The fetch *)

(** How a fetch can fail before a successful GET: the connection cannot be
    set up, GET reports an error, or the status is not OK. *)
Inductive failsBeforeBody : HttpExchange -> Prop :=
  | fails_begin : failsBeforeBody BeginFailed
  | fails_get httpCode reads :
      (httpCode <= 0)%Z -> failsBeforeBody (GetReturned httpCode reads)
  | fails_status httpCode reads :
      httpCode <> HTTP_CODE_OK -> failsBeforeBody (GetReturned httpCode reads).

(** The calls the read loop makes, without the reassembly: [parseIcsLine]
    on each logical line in turn. *)
Fixpoint feed (lines : list string) (c : Calendar) : outcome Calendar :=
  match lines with
  | [] => Done c
  | line :: rest => '(c', _) ← parseIcsLine line c; feed rest c'
  end.

(** A date line followed by a category line that names a known label. *)
Definition validPair (p : string * string) : Prop :=
  contains p.1 eventTrigger = true
  /\ contains p.2 eventTrigger = false
  /\ contains p.2 eventTypeTrigger = true
  /\ exists i label, TrashTypeStrings !! i = Some label /\ contains p.2 label = true.

Definition pairLines (pairs : list (string * string)) : list string :=
  concat (map (fun p => [p.1; p.2]) pairs).

(** ** The Date Matcher as a fold over the stored Events *)

Definition matchesDay (timeinfo timeinfoNextDay : tm) (ev : Event.t) : bool :=
  isEventOnDate ev timeinfo || isEventOnDate ev timeinfoNextDay.

(** The entry the scan loop leaves for a matching Event: the later
    assignment of [day] is the one for the next day. *)
Definition entryOf (timeinfoNextDay : tm) (ev : Event.t) : TodaysEvent.t :=
  TodaysEvent.mk (Event.type ev)
                 (if isEventOnDate ev timeinfoNextDay then TOMORROW else TODAY).

(** The colour the three tables give a category. *)
Definition colorOf (t : TrashType) : RGB :=
  Color (nth (TrashType_to_nat t) TrashTypeRed 0%Z)
        (nth (TrashType_to_nat t) TrashTypeGreen 0%Z)
        (nth (TrashType_to_nat t) TrashTypeBlue 0%Z).

Fixpoint scanList (timeinfo timeinfoNextDay : tm) (stored : list Event.t)
    (s : Local.t * list TodaysEvent.t * nat)
  : outcome (Local.t * list TodaysEvent.t * nat) :=
  match stored with
  | [] => Done s
  | ev :: rest =>
      s' ← matchEvent timeinfo timeinfoNextDay ev s;
      scanList timeinfo timeinfoNextDay rest s'
  end.

(** ** Sample inputs *)

Definition CR : string := String (ascii_of_nat 13) "".

Definition two_digits (n : nat) : string :=
  String (ascii_of_nat (48 + n / 10)) (String (ascii_of_nat (48 + n mod 10)) "").

(** The [k]-th VEVENT block of a sample calendar: a date in 2025 and one of
    the five labels, each line ending in CR as in a CRLF stream. *)
Definition sampleEvent (k : nat) : list string :=
  [ String.append "BEGIN:VEVENT" CR;
    String.append
      (String.append "DTSTART;VALUE=DATE:2025"
         (String.append (two_digits (1 + k / 28)) (two_digits (1 + k mod 28)))) CR;
    String.append
      (String.append "SUMMARY:" (nth (k mod 5) TrashTypeStrings "")) CR;
    String.append "END:VEVENT" CR ].

Definition sampleCalendar (n : nat) : list string :=
  [String.append "BEGIN:VCALENDAR" CR]
  ++ concat (map sampleEvent (seq 0 n))
  ++ [String.append "END:VCALENDAR" CR].

(** A calendar that ends right after a date marker, and the next fetch,
    which has a category marker but no date marker. *)
Definition danglingDateFetch : list string :=
  [ "DTSTART;VALUE=DATE:20250315"; "SUMMARY:Restabfall"; "END:VEVENT";
    "DTSTART;VALUE=DATE:20250322"; "END:VCALENDAR" ].

Definition orphanCategoryFetch : list string :=
  [ "BEGIN:VCALENDAR"; "SUMMARY:Bioabfall"; "END:VCALENDAR" ].

(** A calendar whose first slots hold [stored]; the rest of the array is
    zero-initialised. *)
Definition calendarOf (stored : list Event.t) : Calendar :=
  mkCalendar (stored ++ replicate (maxNumberOfEvents - length stored)
                                  (Event.mk RESIDUAL 0 0 0))%list
             (length stored) false.

(** 14, 15 and 16 March 2025 as [struct tm] ([tm_year] counts from 1900,
    [tm_mon] from 0). *)
Definition march14 : tm := mk_tm 125 2 14.
Definition march15 : tm := mk_tm 125 2 15.
Definition march16 : tm := mk_tm 125 2 16.

(** The display side after a refresh that found no Event, showed the
    failure indicator and recorded 15 as [lastDay]. *)
Definition displayOnMarch15 : Display :=
  mkDisplay (todaysEvents initialDisplay) 0
            (mkPixels [Color 255 0 0; Color 0 0 0; Color 0 0 0]
                      [Color 255 0 0; Color 0 0 0; Color 0 0 0] 2)
            (Some 2%Z) (Some 15%Z) true.

(** ** Further vocabulary *)

(** The first index of [indices] whose label occurs in [line]. *)
Fixpoint firstContained (line : string) (indices : list nat) : option nat :=
  match indices with
  | [] => None
  | i :: rest =>
      if contains line (nth i TrashTypeStrings "") then Some i
      else firstContained line rest
  end.

(** Two calendars that a fetch cannot tell apart: same count, flag and
    stored Events, and the same date in the slot a pending date marker has
    filled. *)
Definition sameDate (e1 e2 : Event.t) : Prop :=
  Event.year e1 = Event.year e2 /\ Event.month e1 = Event.month e2
  /\ Event.day e1 = Event.day e2.

Definition calendar_sim (c1 c2 : Calendar) : Prop :=
  numberOfEvents c1 = numberOfEvents c2
  /\ trigger c1 = trigger c2
  /\ storedEvents c1 = storedEvents c2
  /\ (trigger c1 = true ->
      forall e1 e2, events c1 !! numberOfEvents c1 = Some e1 ->
                    events c2 !! numberOfEvents c2 = Some e2 -> sameDate e1 e2).

(** A date as the calendar writes it: four digits of the year, two of the
    month, two of the day. *)
Definition digit (n : nat) : ascii := ascii_of_nat (48 + n mod 10).

Definition four_digits (n : nat) : string :=
  String (digit (n / 10 / 10 / 10)) (String (digit (n / 10 / 10))
    (String (digit (n / 10)) (String (digit n) ""))).

Definition dateLine (y m d : nat) (rest : string) : string :=
  String.append eventTrigger
    (String.append (four_digits y)
       (String.append (String (digit (m / 10)) (String (digit m) ""))
          (String.append (String (digit (d / 10)) (String (digit d) "")) rest))).

(** The [struct tm] of a calendar day. *)
Definition tm_of_date (y m d : nat) : tm :=
  mk_tm (Z.of_nat y - 1900) (Z.of_nat m - 1) (Z.of_nat d).

(** The logical line waiting in [oldLine], if any. *)
Definition pending (l : ReadLoop) : list string :=
  if String.eqb (oldLine l) "" then [] else [oldLine l].

(** A read that is neither of zero length nor a separator. *)
Definition plainRead (line : string) : Prop :=
  String.length line <> 0 /\ all_digits (String_trim line) = false.

(** A run of [updateLeds] over successive ticks, each with its flag and
    clock reading. *)
Fixpoint ticks (inputs : list (bool * ClockReading)) (c : Calendar) (d : Display)
  : outcome Display :=
  match inputs with
  | [] => Done d
  | (ok, clock) :: rest => '(d', _) ← updateLeds ok clock c d; ticks rest c d'
  end.

(** * Properties *)

(** ** Arrays and loops *)

Lemma array_modify_Done {A} name (f : A -> A) (a : list A) i :
  i < length a -> array_modify name f a i = Done (alter f i a).
Proof. intros H. unfold array_modify. by rewrite decide_True. Qed.

Lemma array_modify_OutOfBounds {A} name (f : A -> A) (a : list A) i :
  length a <= i -> array_modify name f a i = OutOfBounds name i.
Proof. intros H. unfold array_modify. rewrite decide_False; [done | lia]. Qed.

Lemma array_read_Done {A} name (a : list A) i x :
  a !! i = Some x -> array_read name a i = Done x.
Proof. intros H. unfold array_read. by rewrite H. Qed.

Lemma forEach_app {S} (body : nat -> S -> outcome S) l1 l2 s :
  forEach body (l1 ++ l2) s = (s' ← forEach body l1 s; forEach body l2 s').
Proof.
  revert s. induction l1 as [|i l1 IH]; intros s; simpl; [done|].
  destruct (body i s) as [s'|]; simpl; [apply IH | done].
Qed.

Lemma array_modify_inv {A} name (f : A -> A) (a a' : list A) i :
  array_modify name f a i = Done a' -> a' = alter f i a.
Proof. unfold array_modify. case_decide; [by intros [= <-] | done]. Qed.

Lemma bind_Done {A B} (m : outcome A) (f : A -> outcome B) y :
  m ≫= f = Done y -> exists x, m = Done x /\ f x = Done y.
Proof. destruct m as [x|]; [eauto | done]. Qed.

Lemma forEach_invariant {S} (P : S -> Prop) (body : nat -> S -> outcome S) indices :
  (forall i s s', body i s = Done s' -> P s -> P s') ->
  forall s s', forEach body indices s = Done s' -> P s -> P s'.
Proof.
  intros Hbody. induction indices as [|i rest IH]; intros s s' Hrun Hs.
  - by injection Hrun as <-.
  - cbn [forEach] in Hrun. apply bind_Done in Hrun as (s1 & H1 & Hrest). eauto.
Qed.

Lemma alter_as_insert {A} (f : A -> A) (l : list A) i x :
  l !! i = Some x -> alter f i l = <[i := f x]> l.
Proof.
  intros H. apply list_eq. intros j.
  destruct (decide (i = j)) as [<-|Hne].
  - rewrite list_lookup_alter_eq, H.
    rewrite list_lookup_insert_eq by (by eapply lookup_lt_Some). done.
  - by rewrite list_lookup_alter_ne, list_lookup_insert_ne.
Qed.

(** ** The calendar stays within its array *)

Lemma initialCalendar_ok : calendar_ok initialCalendar.
Proof. split; [reflexivity | unfold initialCalendar, maxNumberOfEvents; simpl; lia]. Qed.

Lemma resolveType_Done line indices evs n :
  n < length evs ->
  Forall (fun i => i < length TrashTypeStrings) indices ->
  exists evs', resolveType line indices evs n = Done evs'
               /\ length evs' = length evs.
Proof.
  intros Hn Hall. revert evs Hn.
  induction Hall as [|i rest Hi _ IH]; intros evs Hn; simpl.
  - eauto.
  - rewrite array_modify_Done by done. simpl.
    destruct (lookup_lt_is_Some_2 TrashTypeStrings i Hi) as [label Hl].
    rewrite (array_read_Done _ _ _ _ Hl). simpl.
    destruct (contains line label).
    + rewrite array_modify_Done by (by rewrite length_alter).
      eexists; split; [done|]. by rewrite !length_alter.
    + destruct (IH (alter (Event.set_type COUNT) n evs)) as (evs' & -> & Hlen).
      { by rewrite length_alter. }
      eexists; split; [done|]. by rewrite Hlen, length_alter.
Qed.

Lemma parseIcsLine_full line c :
  maxNumberOfEvents <= numberOfEvents c ->
  parseIcsLine line c
  = Done (c, [SerialText "Max number of events reached."; SerialNewline]).
Proof. intros H. unfold parseIcsLine. by rewrite decide_True. Qed.

Lemma parseIcsLine_ok line c :
  calendar_ok c ->
  exists c' out, parseIcsLine line c = Done (c', out)
    /\ calendar_ok c'
    /\ numberOfEvents c <= numberOfEvents c' <= S (numberOfEvents c).
Proof.
  intros [Hlen Hn]. unfold parseIcsLine.
  destruct (decide (maxNumberOfEvents <= numberOfEvents c)) as [Hfull|Hfree].
  { eexists _, _. split; [done|]. split; [by split | lia]. }
  assert (numberOfEvents c < length (events c)) as Hidx by lia.
  destruct (contains line eventTrigger).
  { rewrite array_modify_Done by done. simpl.
    rewrite array_modify_Done by (by rewrite length_alter). simpl.
    rewrite array_modify_Done by (by rewrite !length_alter). simpl.
    match goal with |- context [array_read _ ?a ?i] =>
      destruct (lookup_lt_is_Some_2 a i) as [e He];
        [by rewrite !length_alter | rewrite (array_read_Done _ _ _ _ He)]
    end. simpl.
    eexists _, _. split; [done|]. split; [| simpl; lia].
    split; simpl; [by rewrite !length_alter | lia]. }
  destruct (trigger c && contains line eventTypeTrigger).
  2: { eexists _, _. split; [done|]. split; [by split | lia]. }
  destruct (resolveType_Done line (seq 0 (TrashType_to_nat COUNT)) (events c)
              (numberOfEvents c) Hidx) as (evs & -> & Hlen').
  { apply Forall_forall. intros i Hi%in_seq. simpl in *. lia. }
  simpl.
  destruct (lookup_lt_is_Some_2 evs (numberOfEvents c)) as [e He]; [lia|].
  rewrite (array_read_Done _ _ _ _ He). simpl.
  destruct (decide (_ < _)) as [Hty|Hty].
  - destruct (lookup_lt_is_Some_2 TrashTypeStrings (TrashType_to_nat (Event.type e)))
      as [label Hl]; [simpl in *; lia|].
    rewrite (array_read_Done _ _ _ _ Hl). simpl.
    eexists _, _. split; [done|]. split; [| simpl; lia].
    split; simpl; [congruence | unfold maxNumberOfEvents in *; lia].
  - eexists _, _. split; [done|]. split; [| simpl; lia].
    split; simpl; [congruence | done].
Qed.

Lemma processLine_ok line l c :
  calendar_ok c ->
  exists l' c' emitted, processLine line l c = Done (l', c', emitted) /\ calendar_ok c'.
Proof.
  intros Hc. unfold processLine.
  destruct (negb (all_digits (String_trim line))); [| by eexists _, _, _].
  match goal with |- context [negb (String.eqb ?s "")] =>
    destruct (negb (String.eqb s "")); [| by eexists _, _, _];
    destruct (parseIcsLine_ok s c Hc) as (c' & out & -> & Hc' & _)
  end.
  simpl. by eexists _, _, _.
Qed.

Lemma readLoop_ok reads l c :
  calendar_ok c -> exists c', readLoop reads l c = Done c' /\ calendar_ok c'.
Proof.
  revert l c. induction reads as [|line rest IH]; intros l c Hc; cbn [readLoop]; [eauto|].
  destruct (String.length line =? 0).
  - destruct (2 <=? S (zeroLines l)); [eauto | by apply IH].
  - destruct (processLine_ok line l c Hc) as (l' & c' & emitted & -> & Hc').
    cbn [mbind outcome_bind]. by apply IH.
Qed.

Lemma getIcs_ok http c :
  calendar_ok c -> exists c' ok, getIcs http c = Done (c', ok) /\ calendar_ok c'.
Proof.
  intros Hc. destruct http as [|httpCode reads]; simpl; [eauto|].
  destruct (httpCode <=? 0)%Z; [eauto|].
  destruct (negb (httpCode =? HTTP_CODE_OK)%Z); [eauto|].
  destruct (readLoop_ok reads (mkReadLoop "" false 0)
              (mkCalendar (events c) 0 (trigger c))) as (c' & -> & Hc').
  { destruct Hc. split; simpl; [done | lia]. }
  simpl. destruct (numberOfEvents c' =? 0); eauto.
Qed.

(** ** Every stored Event has a resolved type *)

Lemma resolveType_take line indices : forall evs n evs',
  resolveType line indices evs n = Done evs' -> take n evs' = take n evs.
Proof.
  induction indices as [|i rest IH]; intros evs n evs' H; cbn [resolveType] in H.
  { by injection H as <-. }
  apply bind_Done in H as (evs1 & ->%array_modify_inv & H).
  apply bind_Done in H as (label & _ & H).
  destruct (contains line label).
  - apply array_modify_inv in H as ->. by rewrite !take_alter_ge.
  - apply IH in H. by rewrite H, take_alter_ge.
Qed.

Lemma parseIcsLine_types line c c' out :
  stored_types_ok c ->
  parseIcsLine line c = Done (c', out) ->
  stored_types_ok c'.
Proof.
  unfold stored_types_ok, storedEvents, parseIcsLine. cbv zeta. intros Hty.
  case_decide as Hfull; [by intros [= <- _]|].
  destruct (contains line eventTrigger).
  { intros Hrun.
    apply bind_Done in Hrun as (evs1 & ->%array_modify_inv & Hrun).
    apply bind_Done in Hrun as (evs2 & ->%array_modify_inv & Hrun).
    apply bind_Done in Hrun as (evs3 & ->%array_modify_inv & Hrun).
    apply bind_Done in Hrun as (e & _ & Hrun). injection Hrun as <- _.
    cbn [events numberOfEvents]. by rewrite !take_alter_ge. }
  destruct (trigger c && contains line eventTypeTrigger); [|by intros [= <- _]].
  intros Hrun. apply bind_Done in Hrun as (evs & Hres & Hrun).
  apply resolveType_take in Hres.
  apply bind_Done in Hrun as (e & He & Hrun).
  unfold array_read in He. destruct (evs !! numberOfEvents c) as [e'|] eqn:Hl; [|done].
  injection He as ->.
  case_decide as Hlt.
  - apply bind_Done in Hrun as (label & _ & Hrun). injection Hrun as <- _.
    cbn [events numberOfEvents]. rewrite (take_S_r _ _ _ Hl), Hres.
    apply Forall_app. split; [done|]. constructor; [|constructor].
    intros Heq. rewrite Heq in Hlt. simpl in Hlt. lia.
  - injection Hrun as <- _. cbn [events numberOfEvents]. by rewrite Hres.
Qed.

Lemma readLoop_types reads : forall l c c',
  stored_types_ok c -> readLoop reads l c = Done c' -> stored_types_ok c'.
Proof.
  induction reads as [|line rest IH]; intros l c c' Hty H; cbn [readLoop] in H.
  { by injection H as <-. }
  destruct (String.length line =? 0).
  { destruct (2 <=? S (zeroLines l)); [by injection H as <- | by eapply IH]. }
  apply bind_Done in H as ([[l1 c1] emitted] & Hstep & H).
  eapply IH; [|exact H].
  unfold processLine in Hstep.
  destruct (negb (all_digits (String_trim line))); [|by injection Hstep as _ <- _].
  apply bind_Done in Hstep as ([c2 em] & Hparse & Hstep). injection Hstep as _ <- _.
  destruct (negb (String.eqb _ "")); [|by injection Hparse as <- _].
  apply bind_Done in Hparse as ([c3 out] & Hparse & Heq). injection Heq as <- _.
  by eapply parseIcsLine_types.
Qed.

(** From program start on, whatever is fetched, the calendar stays within
    its array and every stored Event has one of the five categories. *)
Lemma getIcs_types http c c' ok :
  stored_types_ok c -> getIcs http c = Done (c', ok) -> stored_types_ok c'.
Proof.
  intros Hty. destruct http as [|httpCode reads]; cbn [getIcs]; [by intros [= <- _]|].
  destruct (httpCode <=? 0)%Z; [by intros [= <- _]|].
  destruct (negb (httpCode =? HTTP_CODE_OK)%Z); [by intros [= <- _]|].
  intros H. apply bind_Done in H as (c1 & Hloop & H).
  assert (stored_types_ok c1) as H1.
  { eapply readLoop_types; [|exact Hloop]. constructor. }
  by destruct (numberOfEvents c1 =? 0); injection H as <- _.
Qed.

(** ** Claims about the fetch *)

Lemma getIcs_failsBeforeBody http c :
  failsBeforeBody http -> getIcs http c = Done (c, false).
Proof.
  intros [|httpCode reads H|httpCode reads H]; simpl; [done| |].
  - by rewrite (proj2 (Z.leb_le _ _) H).
  - destruct (httpCode <=? 0)%Z; [done|].
    by rewrite (proj2 (Z.eqb_neq _ _) H).
Qed.

Lemma TrashType_to_of_nat i : i < 5 -> TrashType_to_nat (TrashType_of_nat i) = i.
Proof. intros H. do 5 (destruct i as [|i]; [done|]). lia. Qed.

Lemma resolveType_found line indices evs n :
  n < length evs ->
  Forall (fun i => i < length TrashTypeStrings) indices ->
  (exists i label, In i indices /\ TrashTypeStrings !! i = Some label
                   /\ contains line label = true) ->
  exists evs' e, resolveType line indices evs n = Done evs'
    /\ length evs' = length evs
    /\ evs' !! n = Some e
    /\ TrashType_to_nat (Event.type e) < TrashType_to_nat COUNT.
Proof.
  intros Hn Hall. revert evs Hn.
  induction Hall as [|i rest Hi _ IH]; intros evs Hn (j & label & Hin & Hl & Hc).
  { destruct Hin. }
  cbn [resolveType]. rewrite array_modify_Done by done. cbn [mbind outcome_bind].
  destruct (lookup_lt_is_Some_2 TrashTypeStrings i Hi) as [label' Hl'].
  rewrite (array_read_Done _ _ _ _ Hl'). cbn [mbind outcome_bind].
  destruct (contains line label') eqn:Hc'.
  - rewrite array_modify_Done by (by rewrite length_alter).
    destruct (lookup_lt_is_Some_2 evs n Hn) as [e He].
    eexists _, _. split; [done|]. split; [by rewrite !length_alter|].
    split.
    + rewrite !list_lookup_alter_eq, He. reflexivity.
    + simpl in *. rewrite TrashType_to_of_nat; lia.
  - destruct (IH (alter (Event.set_type COUNT) n evs)) as (evs' & e & -> & Hlen & He & Hty).
    { by rewrite length_alter. }
    { destruct Hin as [->|Hin]; [congruence | eauto]. }
    eexists _, _. split; [done|]. split; [by rewrite Hlen, length_alter | done].
Qed.

Lemma parseIcsLine_date line c :
  numberOfEvents c < maxNumberOfEvents ->
  numberOfEvents c < length (events c) ->
  contains line eventTrigger = true ->
  exists evs out,
    parseIcsLine line c = Done (mkCalendar evs (numberOfEvents c) true, out)
    /\ length evs = length (events c).
Proof.
  intros Hfree Hidx Hd. unfold parseIcsLine. cbv zeta.
  rewrite decide_False by lia. rewrite Hd.
  rewrite array_modify_Done by done. cbn [mbind outcome_bind].
  rewrite array_modify_Done by (by rewrite length_alter). cbn [mbind outcome_bind].
  rewrite array_modify_Done by (by rewrite !length_alter). cbn [mbind outcome_bind].
  match goal with |- context [array_read _ ?a ?i] =>
    destruct (lookup_lt_is_Some_2 a i) as [e He];
      [by rewrite !length_alter | rewrite (array_read_Done _ _ _ _ He)]
  end.
  cbn [mbind outcome_bind]. eexists _, _. split; [done|]. by rewrite !length_alter.
Qed.

Lemma parseIcsLine_category line c :
  numberOfEvents c < maxNumberOfEvents ->
  numberOfEvents c < length (events c) ->
  contains line eventTrigger = false ->
  trigger c = true ->
  contains line eventTypeTrigger = true ->
  (exists i label, TrashTypeStrings !! i = Some label /\ contains line label = true) ->
  exists evs out,
    parseIcsLine line c = Done (mkCalendar evs (S (numberOfEvents c)) false, out)
    /\ length evs = length (events c).
Proof.
  intros Hfree Hidx Hnd Ht Hs (i & label & Hl & Hc). unfold parseIcsLine. cbv zeta.
  rewrite decide_False by lia. rewrite Hnd, Ht, Hs. cbn [andb].
  destruct (resolveType_found line (seq 0 (TrashType_to_nat COUNT)) (events c)
              (numberOfEvents c))
    as (evs2 & e2 & -> & Hlen2 & He2 & Hty); [lia | | |].
  { apply Forall_forall. intros j Hj%in_seq. simpl in *. lia. }
  { exists i, label. split; [|done]. apply in_seq.
    apply lookup_lt_Some in Hl. simpl in *. lia. }
  cbn [mbind outcome_bind]. rewrite (array_read_Done _ _ _ _ He2).
  cbn [mbind outcome_bind]. rewrite decide_True by done.
  destruct (lookup_lt_is_Some_2 TrashTypeStrings (TrashType_to_nat (Event.type e2)))
    as [label2 Hl2]; [simpl in *; lia|].
  rewrite (array_read_Done _ _ _ _ Hl2). cbn [mbind outcome_bind].
  eexists _, _. split; [done|]. done.
Qed.

Lemma parse_validPair p c :
  calendar_ok c -> validPair p ->
  exists c', feed [p.1; p.2] c = Done c'
    /\ calendar_ok c'
    /\ numberOfEvents c' = Nat.min (S (numberOfEvents c)) maxNumberOfEvents.
Proof.
  intros [Hlen Hn] (Hd & Hnd & Hs & Hlabel).
  cbn [feed].
  destruct (decide (maxNumberOfEvents <= numberOfEvents c)) as [Hfull|Hfree].
  { rewrite parseIcsLine_full by done. cbn [mbind outcome_bind].
    rewrite parseIcsLine_full by done. cbn [mbind outcome_bind].
    eexists. split; [done|]. split; [by split | lia]. }
  destruct (parseIcsLine_date p.1 c) as (evs1 & out1 & -> & Hlen1); [lia..|done|].
  cbn [mbind outcome_bind].
  destruct (parseIcsLine_category p.2 (mkCalendar evs1 (numberOfEvents c) true))
    as (evs2 & out2 & -> & Hlen2); cbn [numberOfEvents events trigger]; [lia..|done|done|done|done|].
  cbn [mbind outcome_bind numberOfEvents events trigger] in *.
  eexists. split; [done|]. unfold calendar_ok. cbn [numberOfEvents events].
  split; [split; [congruence | lia] | lia].
Qed.

Lemma feed_app l1 l2 c :
  feed (l1 ++ l2) c = (c' ← feed l1 c; feed l2 c').
Proof.
  revert c. induction l1 as [|line l1 IH]; intros c; [done|].
  cbn [feed app]. destruct (parseIcsLine line c) as [[c' out]|]; [|done].
  cbn [mbind outcome_bind]. apply IH.
Qed.

Lemma feed_validPairs pairs c :
  calendar_ok c -> Forall validPair pairs ->
  exists c', feed (pairLines pairs) c = Done c'
    /\ calendar_ok c'
    /\ numberOfEvents c' = Nat.min (numberOfEvents c + length pairs) maxNumberOfEvents.
Proof.
  intros Hc Hall. revert c Hc.
  induction Hall as [|p pairs Hp _ IH]; intros c Hc.
  { exists c. split; [done|]. split; [done|]. destruct Hc. simpl. lia. }
  unfold pairLines. cbn [map concat]. rewrite feed_app.
  destruct (parse_validPair p c Hc Hp) as (c1 & -> & Hc1 & Hn1).
  cbn [mbind outcome_bind].
  destruct (IH c1 Hc1) as (c2 & H2 & Hc2 & Hn2).
  exists c2. split; [done|]. split; [done|].
  rewrite Hn2, Hn1. cbn [length]. lia.
Qed.

(** C6: the stored Event count stays in [0, 100].  From a calendar within
    its array, neither [parseIcsLine] nor a whole fetch leaves the array or
    pushes the count above 100; at 100 stored Events [parseIcsLine] ignores
    any line (date marker, category marker or other) and prints its
    diagnostic; any sequence of valid date+category pairs fed to the
    extractor stores [min (count + pairs) 100] Events, and the fetch of a
    calendar with 150 pairs stores exactly 100. *)
Theorem C6_event_count_bounded (c : Calendar) (http : HttpExchange) (line : string)
    (pairs : list (string * string)) :
  calendar_ok c ->
  Forall validPair pairs ->
  (exists c' out, parseIcsLine line c = Done (c', out) /\ calendar_ok c')
  /\ (maxNumberOfEvents <= numberOfEvents c ->
      parseIcsLine line c
      = Done (c, [SerialText "Max number of events reached."; SerialNewline]))
  /\ (exists c' ok, getIcs http c = Done (c', ok)
                    /\ length (events c') = 100 /\ numberOfEvents c' <= 100)
  /\ (exists c', feed (pairLines pairs) c = Done c'
                 /\ length (events c') = 100
                 /\ numberOfEvents c' = Nat.min (numberOfEvents c + length pairs) 100)
  /\ (exists c', getIcs (GetReturned HTTP_CODE_OK (sampleCalendar 150)) initialCalendar
                 = Done (c', true)
                 /\ length (events c') = 100 /\ numberOfEvents c' = 100).
Proof.
  intros Hc Hpairs. split; [|split; [|split; [|split]]].
  - destruct (parseIcsLine_ok line c Hc) as (c' & out & H & Hc' & _). eauto.
  - apply parseIcsLine_full.
  - destruct (getIcs_ok http c Hc) as (c' & ok & H & Hlen & Hn). eauto.
  - destruct (feed_validPairs pairs c Hc Hpairs) as (c' & H & [Hlen _] & Hn). eauto.
  - eexists. split; [vm_compute; reflexivity|]. split; reflexivity.
Qed.

(** C6 at program start, with two pairs. *)
Lemma C6_event_count_bounded_witness :
  calendar_ok initialCalendar
  /\ Forall validPair [("DTSTART;VALUE=DATE:20250315", "SUMMARY:Restabfall");
                       ("DTSTART;VALUE=DATE:20250316", "SUMMARY:Bioabfall Nord")]
  /\ (exists c', feed (pairLines [("DTSTART;VALUE=DATE:20250315", "SUMMARY:Restabfall");
                                  ("DTSTART;VALUE=DATE:20250316", "SUMMARY:Bioabfall Nord")])
                   initialCalendar = Done c'
                 /\ length (events c') = 100
                 /\ numberOfEvents c' = Nat.min (numberOfEvents initialCalendar + 2) 100).
Proof.
  assert (calendar_ok initialCalendar) as Hc.
  { split; [reflexivity | vm_compute; lia]. }
  assert (Forall validPair [("DTSTART;VALUE=DATE:20250315", "SUMMARY:Restabfall");
                            ("DTSTART;VALUE=DATE:20250316", "SUMMARY:Bioabfall Nord")]) as Hp.
  { repeat constructor; try (vm_compute; reflexivity).
    - exists 0, "Restabfall". split; vm_compute; reflexivity.
    - exists 1, "Bioabfall". split; vm_compute; reflexivity. }
  split; [exact Hc|]. split; [exact Hp|].
  exact (proj1 (proj2 (proj2 (proj2
           (C6_event_count_bounded initialCalendar BeginFailed "" _ Hc Hp))))).
Defined.

(** The fetch of a calendar below the capacity stores all of its events. *)
Example sampleCalendar_7 :
  exists c', getIcs (GetReturned HTTP_CODE_OK (sampleCalendar 7)) initialCalendar
             = Done (c', true)
             /\ numberOfEvents c' = 7
             /\ events c' !! 6 = Some (Event.mk BIO 25 1 7).
Proof. eexists. split; [vm_compute; reflexivity|]. split; reflexivity. Qed.

(** C7 (amended): when the GET succeeds and the body is read to its end
    but no Event is stored, [getIcs] returns false, the verdict it also
    gives when the connection cannot be set up, when GET reports an error
    and when the status is not OK.  The count is then zero, so [updateIcs]
    always takes the wait-and-retry branch: it blinks for 600 rounds and
    goes on with the next fetch as a fresh [updateIcs] would, on the emptied
    calendar.  A failure before the body takes that branch only while no
    Event is stored; with Events stored [updateIcs] returns at once, the
    calendar and the strip untouched. *)
Theorem C7_zero_events_is_failure (reads : list string) (c c' : Calendar) (ok : bool)
    (rest : list HttpExchange) (px : Pixels) :
  getIcs (GetReturned HTTP_CODE_OK reads) c = Done (c', ok) ->
  numberOfEvents c' = 0 ->
  ok = false
  /\ (forall http, failsBeforeBody http -> exists c'', getIcs http c = Done (c'', ok))
  /\ updateIcs (GetReturned HTTP_CODE_OK reads :: rest) c px
     = updateIcs rest c' (blink 600 true px)
  /\ (forall http, failsBeforeBody http ->
        updateIcs (http :: rest) c px
        = if 0 <? numberOfEvents c then Done (Returned c px false)
          else updateIcs rest c (blink 600 true px)).
Proof.
  intros Hget Hzero.
  assert (ok = false) as ->.
  { cbn in Hget.
    destruct (readLoop reads _ _) as [c1|]; [|done]. cbn in Hget.
    destruct (numberOfEvents c1 =? 0) eqn:Hn; [congruence|].
    injection Hget as <- <-. apply Nat.eqb_neq in Hn. done. }
  split; [done|]. split.
  { intros http Hfail. exists c. by apply getIcs_failsBeforeBody. }
  split.
  - cbn [updateIcs]. rewrite Hget. cbn [mbind outcome_bind].
    destruct rest; cbn [retryIcs updateIcs]; unfold handleFailure; by rewrite Hzero.
  - intros http Hfail. cbn [updateIcs].
    rewrite (getIcs_failsBeforeBody http c Hfail). cbn [mbind outcome_bind].
    destruct rest; cbn [retryIcs updateIcs]; unfold handleFailure;
      by destruct (0 <? numberOfEvents c).
Qed.

(** C7 (amended) at a calendar without events, fetched at program start
    and followed by a refused connection. *)
Lemma C7_zero_events_is_failure_witness :
  getIcs (GetReturned HTTP_CODE_OK ["BEGIN:VCALENDAR"; "VERSION:2.0"; "END:VCALENDAR"])
         initialCalendar
  = Done (initialCalendar, false)
  /\ numberOfEvents initialCalendar = 0
  /\ updateIcs [GetReturned HTTP_CODE_OK ["BEGIN:VCALENDAR"; "VERSION:2.0"; "END:VCALENDAR"];
                BeginFailed] initialCalendar initialPixels
     = updateIcs [BeginFailed] initialCalendar (blink 600 true initialPixels).
Proof.
  assert (getIcs (GetReturned HTTP_CODE_OK ["BEGIN:VCALENDAR"; "VERSION:2.0"; "END:VCALENDAR"])
                 initialCalendar
          = Done (initialCalendar, false)) as H by (vm_compute; reflexivity).
  split; [exact H|]. split; [reflexivity|].
  exact (proj1 (proj2 (proj2
           (C7_zero_events_is_failure _ _ _ _ [BeginFailed] initialPixels H eq_refl)))).
Defined.

(** C7 (as stated) fails: the caller does not take the same path.  With two
    Events stored, a fetch answered with status 503 makes [updateIcs] return
    at once, the Events kept and nothing transmitted to the strip; a fetch
    answered with status OK and a body without Events makes it drop the
    Events, blink for 600 rounds and stay in its retry loop. *)
Lemma C7_counterexample :
  let c := calendarOf [Event.mk PAPER 25 3 1; Event.mk BIO 25 3 8] in
  let empty := GetReturned HTTP_CODE_OK ["BEGIN:VCALENDAR"; "VERSION:2.0"; "END:VCALENDAR"] in
  (exists c', getIcs (GetReturned 503 []) c = Done (c', false))
  /\ (exists c', getIcs empty c = Done (c', false) /\ numberOfEvents c' = 0)
  /\ updateIcs [GetReturned 503 []] c initialPixels = Done (Returned c initialPixels false)
  /\ (exists c' px',
        updateIcs [empty] c initialPixels = Done (StillRetrying c' px')
        /\ numberOfEvents c' = 0
        /\ shows px' = shows initialPixels + 600
        /\ shown px' = [Color 255 0 0; Color 255 0 0; Color 255 0 0])
  /\ updateIcs [empty] c initialPixels <> updateIcs [GetReturned 503 []] c initialPixels.
Proof.
  cbv zeta. split; [eexists; vm_compute; reflexivity|].
  split; [eexists; split; [vm_compute; reflexivity | reflexivity]|].
  split; [vm_compute; reflexivity|].
  split.
  - eexists _, _. split; [vm_compute; reflexivity|].
    split; [reflexivity|]. split; [vm_compute; reflexivity | vm_compute; reflexivity].
  - vm_compute. discriminate.
Qed.

(** C10: a fetch that fails before a successful GET (no connection, GET
    error, status not OK) returns false and leaves [events],
    [numberOfEvents] and [trigger] as they were, so [handleFailure] returns
    true at once when Events were stored before; after a successful GET the
    count is zero when parsing starts, whatever it was before. *)
Theorem C10_failed_fetch_keeps_events (http : HttpExchange) (c : Calendar) (px : Pixels) :
  failsBeforeBody http ->
  getIcs http c = Done (c, false)
  /\ (0 < numberOfEvents c -> handleFailure c px = (px, true))
  /\ getIcs (GetReturned HTTP_CODE_OK []) c
     = Done (mkCalendar (events c) 0 (trigger c), false)
  /\ (forall reads,
        getIcs (GetReturned HTTP_CODE_OK reads) c
        = getIcs (GetReturned HTTP_CODE_OK reads) (mkCalendar (events c) 0 (trigger c))).
Proof.
  intros Hfail. split; [by apply getIcs_failsBeforeBody|].
  split; [|split; [reflexivity | reflexivity]].
  intros Hn. unfold handleFailure.
  by rewrite (proj2 (Nat.ltb_lt _ _) Hn).
Qed.

(** C10 at a 404 response while three Events are stored. *)
Lemma C10_failed_fetch_keeps_events_witness :
  failsBeforeBody (GetReturned 404 ["Not Found"])
  /\ getIcs (GetReturned 404 ["Not Found"]) (mkCalendar (events initialCalendar) 3 true)
     = Done (mkCalendar (events initialCalendar) 3 true, false).
Proof.
  assert (failsBeforeBody (GetReturned 404 ["Not Found"])) as H.
  { apply fails_status. vm_compute. discriminate. }
  split; [exact H|].
  exact (proj1 (C10_failed_fetch_keeps_events _ _ initialPixels H)).
Defined.

(** C9: [trigger] survives from one fetch to the next.  The first fetch
    ends with a date marker that no category line resolves; the second
    fetch has no date marker at all, yet its category line commits an
    Event, with the date fields slot 0 still holds.  The same second fetch
    stores nothing when [trigger] is clear. *)
Theorem C9_trigger_survives_fetch :
  exists c1 c2,
    getIcs (GetReturned HTTP_CODE_OK danglingDateFetch) initialCalendar = Done (c1, true)
    /\ numberOfEvents c1 = 1
    /\ trigger c1 = true
    /\ forallb (fun line => negb (contains line eventTrigger)) orphanCategoryFetch = true
    /\ getIcs (GetReturned HTTP_CODE_OK orphanCategoryFetch) c1 = Done (c2, true)
    /\ numberOfEvents c2 = 1
    /\ events c2 !! 0 = Some (Event.mk BIO 25 3 15)
    /\ getIcs (GetReturned HTTP_CODE_OK orphanCategoryFetch)
              (mkCalendar (events c1) (numberOfEvents c1) false)
       = Done (mkCalendar (events c1) 0 false, false).
Proof.
  eexists _, _. split; [vm_compute; reflexivity|].
  split; [reflexivity|]. split; [reflexivity|]. split; [vm_compute; reflexivity|].
  split; [vm_compute; reflexivity|]. split; [reflexivity|]. split; [reflexivity|].
  vm_compute; reflexivity.
Qed.

(** ** The Date Matcher as a fold over the stored Events *)


Lemma scanStep_read evs tT tN i ev s :
  evs !! i = Some ev -> scanStep evs tT tN i s = matchEvent tT tN ev s.
Proof. intros H. unfold scanStep. by rewrite (array_read_Done _ _ _ _ H). Qed.

Lemma forEach_scanStep evs tT tN m : forall k s,
  k + m <= length evs ->
  forEach (scanStep evs tT tN) (seq k m) s = scanList tT tN (take m (drop k evs)) s.
Proof.
  induction m as [|m IH]; intros k s Hlen; [done|].
  destruct (lookup_lt_is_Some_2 evs k) as [ev Hev]; [lia|].
  rewrite (drop_S _ _ _ Hev). cbn [seq forEach take scanList].
  rewrite (scanStep_read _ _ _ _ _ _ Hev).
  destruct (matchEvent tT tN ev s) as [s'|]; [|done].
  cbn [mbind outcome_bind]. apply IH. lia.
Qed.

Lemma scanEvents_scanList c tT tN te :
  numberOfEvents c <= length (events c) ->
  scanEvents c tT tN te
  = scanList tT tN (storedEvents c) (Local.mk 0 0 0 false false, te, 0).
Proof. intros H. unfold scanEvents. by rewrite forEach_scanStep. Qed.

Lemma table_read name (table : list Z) (t : TrashType) :
  length table = 5 -> t <> COUNT ->
  array_read name table (TrashType_to_nat t) = Done (nth (TrashType_to_nat t) table 0%Z).
Proof.
  intros Hlen Ht. apply array_read_Done.
  do 5 (destruct table as [|? table]; [done|]). destruct table; [|done].
  by destruct t.
Qed.

Lemma matchEvent_miss tT tN ev loc te n :
  matchesDay tT tN ev = false ->
  matchEvent tT tN ev (loc, te, n)
  = Done (Local.mk (Local.r loc) (Local.g loc) (Local.b loc) false false, te, n).
Proof.
  unfold matchesDay, matchEvent. intros H. rewrite H.
  by apply orb_false_elim in H as [-> ->].
Qed.

Lemma matchEvent_hit tT tN ev loc te n :
  matchesDay tT tN ev = true ->
  n < length te ->
  Event.type ev <> COUNT ->
  matchEvent tT tN ev (loc, te, n)
  = Done (Local.mk (colorOf (Event.type ev)).1.1 (colorOf (Event.type ev)).1.2
                   (colorOf (Event.type ev)).2
                   (isEventOnDate ev tN) (isEventOnDate ev tT),
          <[n := entryOf tN ev]> te, S n).
Proof.
  unfold matchesDay, matchEvent. intros H Hn Ht. rewrite H.
  destruct (lookup_lt_is_Some_2 te n Hn) as [x Hx].
  rewrite array_modify_Done by done. cbn [mbind outcome_bind].
  rewrite (alter_as_insert _ _ _ _ Hx).
  assert (forall (y : TodaysEvent.t) (b : bool) d,
             (if b then array_modify "todaysEvents" (TodaysEvent.set_day d) (<[n := y]> te) n
              else Done (<[n := y]> te))
             = Done (<[n := if b then TodaysEvent.set_day d y else y]> te)) as Hday.
  { intros y b d. destruct b; [|done].
    rewrite array_modify_Done by (by rewrite length_insert).
    rewrite (alter_as_insert _ _ _ y) by (by apply list_lookup_insert_eq).
    by rewrite list_insert_insert_eq. }
  rewrite Hday. cbn [mbind outcome_bind]. rewrite Hday. cbn [mbind outcome_bind].
  rewrite !table_read by done. cbn [mbind outcome_bind].
  unfold colorOf, Color, entryOf. cbn [fst snd].
  do 3 f_equal.
  destruct (isEventOnDate ev tT), (isEventOnDate ev tN); try done.
Qed.

Lemma scanList_no_match tT tN stored : forall loc te n,
  Forall (fun ev => matchesDay tT tN ev = false) stored ->
  exists nextDay thisDay,
    scanList tT tN stored (loc, te, n)
    = Done (Local.mk (Local.r loc) (Local.g loc) (Local.b loc) nextDay thisDay, te, n).
Proof.
  induction stored as [|ev rest IH]; intros loc te n Hall.
  { exists (Local.nextDay loc), (Local.thisDay loc). by destruct loc. }
  apply Forall_cons_iff in Hall as [Hev Hrest]. cbn [scanList].
  rewrite matchEvent_miss by done. cbn [mbind outcome_bind].
  destruct (IH (Local.mk (Local.r loc) (Local.g loc) (Local.b loc) false false) te n Hrest)
    as (nd & td & ->).
  by exists nd, td.
Qed.


Lemma scanList_entries tT tN stored : forall loc te n,
  Forall (fun ev => Event.type ev <> COUNT) stored ->
  n + length (List.filter (matchesDay tT tN) stored) <= length te ->
  exists loc' te',
    scanList tT tN stored (loc, te, n)
    = Done (loc', te', n + length (List.filter (matchesDay tT tN) stored))
    /\ length te' = length te
    /\ take (n + length (List.filter (matchesDay tT tN) stored)) te'
       = (take n te ++ map (entryOf tN) (List.filter (matchesDay tT tN) stored))%list.
Proof.
  induction stored as [|ev rest IH]; intros loc te n Hty Hroom.
  { exists loc, te. cbn [scanList List.filter length map].
    rewrite Nat.add_0_r, app_nil_r. done. }
  apply Forall_cons_iff in Hty as [Hev Hrest].
  cbn [scanList List.filter] in *.
  destruct (matchesDay tT tN ev) eqn:Hm.
  - cbn [length map] in *.
    rewrite matchEvent_hit by (done || lia). cbn [mbind outcome_bind].
    destruct (IH (Local.mk (colorOf (Event.type ev)).1.1 (colorOf (Event.type ev)).1.2
                           (colorOf (Event.type ev)).2
                           (isEventOnDate ev tN) (isEventOnDate ev tT))
                 (<[n := entryOf tN ev]> te) (S n) Hrest)
      as (loc' & te' & Hscan & Hlen & Htake).
    { rewrite length_insert. lia. }
    exists loc', te'. rewrite Nat.add_succ_r. cbn [Nat.add] in Hscan, Htake.
    split; [exact Hscan|]. split; [by rewrite Hlen, length_insert|].
    rewrite Htake.
    rewrite (take_S_r _ _ (entryOf tN ev)) by (apply list_lookup_insert_eq; lia).
    rewrite take_insert_ge by lia. by rewrite <- app_assoc.
  - rewrite matchEvent_miss by done. cbn [mbind outcome_bind].
    by apply IH.
Qed.

(** ** Claims about the Date Matcher *)

(** C1 (amended): the scan writes one entry per stored Event that matches
    either date, in scan order and without merging entries of one category,
    so the number of entries is the number of matching Events; when at most
    5 stored Events match, every write is inside [todaysEvents]. *)
Theorem C1_entries_one_per_match (c : Calendar) (timeinfo timeinfoNextDay : tm)
    (te : list TodaysEvent.t) :
  numberOfEvents c <= length (events c) ->
  Forall (fun ev => Event.type ev <> COUNT) (storedEvents c) ->
  length te = TrashType_to_nat COUNT ->
  length (List.filter (matchesDay timeinfo timeinfoNextDay) (storedEvents c))
    <= TrashType_to_nat COUNT ->
  exists loc te',
    scanEvents c timeinfo timeinfoNextDay te
    = Done (loc, te',
            length (List.filter (matchesDay timeinfo timeinfoNextDay) (storedEvents c)))
    /\ length te' = TrashType_to_nat COUNT
    /\ take (length (List.filter (matchesDay timeinfo timeinfoNextDay) (storedEvents c))) te'
       = map (entryOf timeinfoNextDay)
             (List.filter (matchesDay timeinfo timeinfoNextDay) (storedEvents c)).
Proof.
  intros Hn Hty Hlen Hcount.
  rewrite scanEvents_scanList by done.
  destruct (scanList_entries timeinfo timeinfoNextDay (storedEvents c)
              (Local.mk 0 0 0 false false) te 0 Hty)
    as (loc & te' & Hscan & Hlen' & Htake); [cbn [Nat.add]; lia|].
  exists loc, te'. cbn [Nat.add take app] in *.
  split; [exact Hscan|]. split; [congruence | exact Htake].
Qed.

(** C1 (amended) at a calendar with one Event on each of the two days. *)
Lemma C1_entries_one_per_match_witness :
  exists loc te',
    scanEvents (calendarOf [Event.mk RESIDUAL 25 3 15; Event.mk PAPER 25 4 2;
                            Event.mk RESIDUAL 25 3 16])
               march15 march16 (todaysEvents initialDisplay)
    = Done (loc, te', 2)
    /\ length te' = 5
    /\ take 2 te' = [TodaysEvent.mk RESIDUAL TODAY; TodaysEvent.mk RESIDUAL TOMORROW].
Proof.
  refine (C1_entries_one_per_match
            (calendarOf [Event.mk RESIDUAL 25 3 15; Event.mk PAPER 25 4 2;
                         Event.mk RESIDUAL 25 3 16])
            march15 march16 (todaysEvents initialDisplay) _ _ _ _).
  - vm_compute. lia.
  - vm_compute. repeat constructor; discriminate.
  - reflexivity.
  - vm_compute. lia.
Defined.

(** C1 (as stated) fails: two stored Events of one category, one on each
    day, leave two entries of that category; six stored Events on one day
    make the sixth write go to [todaysEvents[5]], outside the array of 5. *)
Lemma C1_counterexample :
  (exists loc te',
     scanEvents (calendarOf [Event.mk RESIDUAL 25 3 15; Event.mk RESIDUAL 25 3 16])
                march15 march16 (todaysEvents initialDisplay)
     = Done (loc, te', 2)
     /\ take 2 te' = [TodaysEvent.mk RESIDUAL TODAY; TodaysEvent.mk RESIDUAL TOMORROW])
  /\ length (todaysEvents initialDisplay) = 5
  /\ scanEvents (calendarOf [Event.mk RESIDUAL 25 3 16; Event.mk BIO 25 3 16;
                             Event.mk PLASTIC 25 3 16; Event.mk PAPER 25 3 16;
                             Event.mk CHRISTMAS_TREE 25 3 16; Event.mk BIO 25 3 16])
                march15 march16 (todaysEvents initialDisplay)
     = OutOfBounds "todaysEvents" 5
  /\ updateLeds true (mkClockReading true march15 march16)
                (calendarOf [Event.mk RESIDUAL 25 3 16; Event.mk BIO 25 3 16;
                             Event.mk PLASTIC 25 3 16; Event.mk PAPER 25 3 16;
                             Event.mk CHRISTMAS_TREE 25 3 16; Event.mk BIO 25 3 16])
                initialDisplay
     = OutOfBounds "todaysEvents" 5.
Proof.
  split; [eexists _, _; split; [vm_compute; reflexivity | reflexivity]|].
  split; [reflexivity|]. split; vm_compute; reflexivity.
Qed.

(** C3 (amended): a stored Event whose date equals both target dates gets
    exactly one entry, at index [numberOfTodaysEvents], and its day tag is
    Tomorrow: the assignment of line 285 follows the one of line 281. *)
Theorem C3_both_days_tagged_tomorrow (evs : list Event.t) (timeinfo timeinfoNextDay : tm)
    (i : nat) (ev : Event.t) (loc : Local.t) (te : list TodaysEvent.t) (n : nat) :
  evs !! i = Some ev ->
  isEventOnDate ev timeinfo = true ->
  isEventOnDate ev timeinfoNextDay = true ->
  Event.type ev <> COUNT ->
  n < length te ->
  exists loc',
    scanStep evs timeinfo timeinfoNextDay i (loc, te, n)
    = Done (loc', <[n := TodaysEvent.mk (Event.type ev) TOMORROW]> te, S n).
Proof.
  intros Hev HT HN Hty Hn. rewrite (scanStep_read _ _ _ _ _ _ Hev).
  rewrite matchEvent_hit by (done || (unfold matchesDay; by rewrite HT)).
  unfold entryOf. rewrite HN. eauto.
Qed.

(** C3 (amended) at an Event of 15 March with both dates 15 March. *)
Lemma C3_both_days_tagged_tomorrow_witness :
  exists loc',
    scanStep [Event.mk PAPER 25 3 15] march15 march15 0
             (Local.mk 0 0 0 false false, todaysEvents initialDisplay, 0)
    = Done (loc', <[0 := TodaysEvent.mk PAPER TOMORROW]> (todaysEvents initialDisplay), 1).
Proof.
  refine (C3_both_days_tagged_tomorrow [Event.mk PAPER 25 3 15] march15 march15 0
            (Event.mk PAPER 25 3 15) (Local.mk 0 0 0 false false)
            (todaysEvents initialDisplay) 0 _ _ _ _ _).
  - reflexivity.
  - reflexivity.
  - reflexivity.
  - discriminate.
  - vm_compute. lia.
Defined.

(** C3 (as stated) fails: with both target dates equal to the Event's date
    the single entry is tagged Tomorrow, not Today. *)
Lemma C3_counterexample :
  exists loc te',
    scanEvents (calendarOf [Event.mk PAPER 25 3 15]) march15 march15
               (todaysEvents initialDisplay)
    = Done (loc, te', 1)
    /\ te' !! 0 = Some (TodaysEvent.mk PAPER TOMORROW)
    /\ te' !! 0 <> Some (TodaysEvent.mk PAPER TODAY).
Proof.
  eexists _, _. split; [vm_compute; reflexivity|]. split; [reflexivity | discriminate].
Qed.

(** ** Claims about the Display Mapper *)

Lemma assignPixels_frame loc te n px px' :
  assignPixels loc te n px = Done px' ->
  length (buffer px') = length (buffer px)
  /\ shown px' = shown px /\ shows px' = shows px.
Proof.
  unfold assignPixels. destruct (n =? 1).
  { intros [= <-]. cbn. destruct (Local.thisDay loc); cbn; by rewrite !length_insert. }
  destruct (1 <? n).
  2: { intros [= <-]. cbn. by rewrite length_replicate. }
  intros Hrun.
  eapply (forEach_invariant
            (fun q => length (buffer q) = length (buffer px)
                      /\ shown q = shown px /\ shows q = shows px)) in Hrun; [done| |].
  - intros i s s' Hbody (Hlen & Hshown & Hshows).
    apply bind_Done in Hbody as (e & _ & Hbody).
    apply bind_Done in Hbody as (r & _ & Hbody).
    apply bind_Done in Hbody as (g & _ & Hbody).
    apply bind_Done in Hbody as (b & _ & Hbody).
    injection Hbody as <-. cbn. by rewrite length_insert.
  - cbn. by rewrite length_insert.
Qed.




(** The three cases of the single-match rule on 15 March, run through the
    whole refresh: the match scanned last and on the today date lights the
    centre only; the match on the tomorrow date only lights every slot,
    scanned last or not; the match on the today date followed by another
    Event lights every slot. *)
Example single_match_cases :
  (exists d',
     refresh true (calendarOf [Event.mk PAPER 25 3 1; Event.mk RESIDUAL 25 3 15])
             march15 march16 initialDisplay = Done d'
     /\ shown (pixels d') = [Color 0 0 0; Color 150 150 140; Color 0 0 0])
  /\ (exists d',
        refresh true (calendarOf [Event.mk PAPER 25 3 1; Event.mk RESIDUAL 25 3 16])
                march15 march16 initialDisplay = Done d'
        /\ todaysEvents d' !! 0 = Some (TodaysEvent.mk RESIDUAL TOMORROW)
        /\ shown (pixels d') = [Color 150 150 140; Color 150 150 140; Color 150 150 140])
  /\ (exists d',
        refresh true (calendarOf [Event.mk RESIDUAL 25 3 16; Event.mk PAPER 25 4 1])
                march15 march16 initialDisplay = Done d'
        /\ todaysEvents d' !! 0 = Some (TodaysEvent.mk RESIDUAL TOMORROW)
        /\ shown (pixels d') = [Color 150 150 140; Color 150 150 140; Color 150 150 140])
  /\ (exists d',
        refresh true (calendarOf [Event.mk RESIDUAL 25 3 15; Event.mk PAPER 25 4 1])
                march15 march16 initialDisplay = Done d'
        /\ todaysEvents d' !! 0 = Some (TodaysEvent.mk RESIDUAL TODAY)
        /\ shown (pixels d') = [Color 150 150 140; Color 150 150 140; Color 150 150 140]).
Proof.
  split; [|split; [|split]]; eexists; (split; [vm_compute; reflexivity|]);
    first [reflexivity | split; reflexivity].
Qed.


(** While [firstRun] is set, a call with a valid clock runs the refresh for
    the buffer [localtime] left, whatever [lastDay] holds. *)
Lemma updateLeds_runs_refresh ok clock c d :
  getLocalTime clock = true ->
  firstRun d = true ->
  updateLeds ok clock c d
  = (d' ← refresh ok c (localtime_nextDay clock) (localtime_nextDay clock) d;
     Done (mkDisplay (todaysEvents d') (numberOfTodaysEvents d') (pixels d')
                     (Some (tm_mon (localtime_nextDay clock)))
                     (Some (tm_mday (localtime_nextDay clock))) (firstRun d),
           negb (default (tm_mon (localtime_thisDay clock)) (lastMonth d)
                 =? tm_mon (localtime_nextDay clock))%Z)).
Proof. intros Hclock Hfirst. unfold updateLeds. by rewrite Hclock, Hfirst. Qed.

Lemma refresh_pixels ok c tT tN d loc te n base :
  scanEvents c tT tN (todaysEvents d) = Done (loc, te, n) ->
  assignPixels loc te n (pixels d) = Done base ->
  refresh ok c tT tN d
  = Done (mkDisplay te n (commitPixels ok base) (lastMonth d) (lastDay d) (firstRun d)).
Proof. intros Hscan Hbase. unfold refresh. rewrite Hscan. cbn. by rewrite Hbase. Qed.

Lemma refresh_inv ok c tT tN d d' :
  refresh ok c tT tN d = Done d' ->
  exists loc te n base,
    scanEvents c tT tN (todaysEvents d) = Done (loc, te, n)
    /\ assignPixels loc te n (pixels d) = Done base
    /\ d' = mkDisplay te n (commitPixels ok base) (lastMonth d) (lastDay d) (firstRun d).
Proof.
  unfold refresh. intros H.
  apply bind_Done in H as ([[loc te] n] & Hscan & H).
  apply bind_Done in H as (base & Hbase & H). injection H as <-.
  by exists loc, te, n, base.
Qed.

(** The overlay as [updateLeds] applies it: after a failed fetch the strip
    shows red in slot 0 whenever the call gets to [pixels.show()]. *)
Lemma updateLeds_failure_overlay clock c d d' newMonth :
  getLocalTime clock = true ->
  firstRun d = true ->
  length (buffer (pixels d)) = numOfNeoPixels ->
  updateLeds false clock c d = Done (d', newMonth) ->
  shown (pixels d') !! 0 = Some (Color 255 0 0).
Proof.
  intros Hclock Hfirst Hbuf H. rewrite updateLeds_runs_refresh in H by done.
  apply bind_Done in H as (d1 & Hd1 & H). injection H as <- _.
  apply refresh_inv in Hd1 as (loc & te & n & base & _ & Hbase & ->).
  apply assignPixels_frame in Hbase as (Hlen & _ & _). cbn.
  apply list_lookup_insert_eq. rewrite Hlen, Hbuf. unfold numOfNeoPixels. lia.
Qed.

(** C8: in a refresh that reaches the display step after a failed fetch,
    slot 0 of the transmitted colours is (255,0,0) whatever the base rule
    put there, and every other slot has the colour of the base rule, which
    is also what a refresh after a successful fetch transmits. *)
Theorem C8_failure_overlay (c : Calendar) (timeinfo timeinfoNextDay : tm) (d : Display)
    (loc : Local.t) (te : list TodaysEvent.t) (n : nat) (base : Pixels) :
  length (buffer (pixels d)) = numOfNeoPixels ->
  scanEvents c timeinfo timeinfoNextDay (todaysEvents d) = Done (loc, te, n) ->
  assignPixels loc te n (pixels d) = Done base ->
  exists dF dT,
    refresh false c timeinfo timeinfoNextDay d = Done dF
    /\ refresh true c timeinfo timeinfoNextDay d = Done dT
    /\ shown (pixels dT) = buffer base
    /\ length (shown (pixels dF)) = numOfNeoPixels
    /\ shown (pixels dF) !! 0 = Some (Color 255 0 0)
    /\ forall p, 1 <= p -> shown (pixels dF) !! p = buffer base !! p.
Proof.
  intros Hbuf Hscan Hbase.
  destruct (assignPixels_frame _ _ _ _ _ Hbase) as (Hlen & _ & _).
  exists (mkDisplay te n (commitPixels false base) (lastMonth d) (lastDay d) (firstRun d)),
         (mkDisplay te n (commitPixels true base) (lastMonth d) (lastDay d) (firstRun d)).
  split; [eapply refresh_pixels; eassumption|].
  split; [eapply refresh_pixels; eassumption|].
  cbn. split; [done|]. split; [by rewrite length_insert, Hlen|].
  split.
  - apply list_lookup_insert_eq. rewrite Hlen, Hbuf. unfold numOfNeoPixels. lia.
  - intros p Hp. apply list_lookup_insert_ne. lia.
Qed.

(** C8 at two matches, Bio today and Plastic tomorrow. *)
Lemma C8_failure_overlay_witness :
  exists dF dT,
    refresh false (calendarOf [Event.mk BIO 25 3 15; Event.mk PLASTIC 25 3 16])
            march15 march16 initialDisplay = Done dF
    /\ refresh true (calendarOf [Event.mk BIO 25 3 15; Event.mk PLASTIC 25 3 16])
               march15 march16 initialDisplay = Done dT
    /\ shown (pixels dT) = [Color 0 0 0; Color 150 20 0; Color 200 200 0]
    /\ length (shown (pixels dF)) = 3
    /\ shown (pixels dF) !! 0 = Some (Color 255 0 0)
    /\ forall p, 1 <= p ->
         shown (pixels dF) !! p = [Color 0 0 0; Color 150 20 0; Color 200 200 0] !! p.
Proof.
  refine (C8_failure_overlay
            (calendarOf [Event.mk BIO 25 3 15; Event.mk PLASTIC 25 3 16])
            march15 march16 initialDisplay
            (Local.mk 200 200 0 true false)
            (<[0 := TodaysEvent.mk BIO TODAY]>
               (<[1 := TodaysEvent.mk PLASTIC TOMORROW]> (todaysEvents initialDisplay)))
            2
            (mkPixels [Color 0 0 0; Color 150 20 0; Color 200 200 0]
                      (shown initialPixels) (shows initialPixels))
            _ _ _).
  - reflexivity.
  - vm_compute. reflexivity.
  - vm_compute. reflexivity.
Defined.

(** ** Claims about the rollover *)

(** [updateLeds] never assigns [firstRun]. *)
Lemma updateLeds_firstRun ok clock c d d' newMonth :
  updateLeds ok clock c d = Done (d', newMonth) -> firstRun d' = firstRun d.
Proof.
  unfold updateLeds. destruct (negb (getLocalTime clock)); [by intros [= <- _]|].
  destruct (negb (firstRun d) && _); [by intros [= <- _]|].
  intros H. apply bind_Done in H as (d1 & _ & H). by injection H as <- _.
Qed.

Lemma refresh_shows ok c tT tN d d' :
  refresh ok c tT tN d = Done d' -> shows (pixels d') = S (shows (pixels d)).
Proof.
  unfold refresh. intros H.
  apply bind_Done in H as ([[loc te] n] & _ & H).
  apply bind_Done in H as (px & Hpx & H). injection H as <-.
  apply assignPixels_frame in Hpx as (_ & _ & Hshows).
  destruct ok; cbn; by rewrite Hshows.
Qed.

(** With [firstRun] set, as it is from program start on, every call with a
    valid clock that returns has transmitted to the strip once more. *)
Lemma updateLeds_always_shows ok clock c d d' newMonth :
  getLocalTime clock = true ->
  firstRun d = true ->
  updateLeds ok clock c d = Done (d', newMonth) ->
  shows (pixels d') = S (shows (pixels d)) /\ firstRun d' = true.
Proof.
  intros Hclock Hfirst H. rewrite updateLeds_runs_refresh in H by done.
  apply bind_Done in H as (d1 & Hd1 & H). injection H as <- _. cbn.
  split; [by eapply refresh_shows | done].
Qed.

(** [displayOnMarch15] is what a tick on 14 March leaves at program start
    after a failed fetch: line 327 reads the buffer that line 258 filled
    with the next day, so [lastDay] is 15. *)
Example displayOnMarch15_reached :
  updateLeds false (mkClockReading true march14 march15)
             (calendarOf [Event.mk PAPER 25 4 2]) initialDisplay
  = Done (displayOnMarch15, false).
Proof. vm_compute. reflexivity. Qed.

(** C4 at a failing input: [lastDay] is 15 and the tick runs on 15 March,
    after the retried fetch succeeded.  The call returns false but is not a
    no-op: it recomputes the colours (slot 0 goes from red to black) and
    transmits them once more. *)
Theorem C4_same_day_tick_refreshes :
  lastDay displayOnMarch15 = Some (tm_mday march15)
  /\ firstRun displayOnMarch15 = true
  /\ exists d2,
       updateLeds true (mkClockReading true march15 march16)
                  (calendarOf [Event.mk PAPER 25 4 2]) displayOnMarch15
       = Done (d2, false)
       /\ shown (pixels displayOnMarch15) = [Color 255 0 0; Color 0 0 0; Color 0 0 0]
       /\ shown (pixels d2) = [Color 0 0 0; Color 0 0 0; Color 0 0 0]
       /\ shows (pixels d2) = S (shows (pixels displayOnMarch15))
       /\ pixels d2 <> pixels displayOnMarch15.
Proof.
  split; [reflexivity|]. split; [reflexivity|].
  eexists. split; [vm_compute; reflexivity|].
  repeat (split; [reflexivity|]). discriminate.
Qed.

(** ** Claims about the line reassembly *)

(** C5 (amended): a read whose trimmed text is all digits hands nothing to
    [parseIcsLine] and leaves the calendar alone; its own text is appended
    to [oldLine] only if the preceding read was all digits too, otherwise
    [oldLine] is kept as it is.  In both cases the flag is set, so the text
    of the following read is what gets appended. *)
Theorem C5_digit_line_is_marker (line : string) (l : ReadLoop) (c : Calendar) :
  all_digits (String_trim line) = true ->
  processLine line l c
  = Done (mkReadLoop (if onlyDigitsInLine l
                      then String.append (oldLine l) (String_trim line)
                      else oldLine l)
                     true 0,
          c, []).
Proof. intros H. unfold processLine. by rewrite H. Qed.

(** C5 (amended) at a digit line that follows the first half of a date
    line. *)
Lemma C5_digit_line_is_marker_witness :
  all_digits (String_trim (String.append "1000" CR)) = true
  /\ processLine (String.append "1000" CR) (mkReadLoop "DTSTART;VALUE=DA" false 0)
                 initialCalendar
     = Done (mkReadLoop "DTSTART;VALUE=DA" true 0, initialCalendar, []).
Proof.
  split; [reflexivity|].
  exact (C5_digit_line_is_marker (String.append "1000" CR)
           (mkReadLoop "DTSTART;VALUE=DA" false 0) initialCalendar eq_refl).
Defined.

(** C5 (as stated) fails: after the read "DTSTART;VALUE=DATE:2025" the
    digit line "0315" is not appended; [oldLine] stays as it was. *)
Lemma C5_counterexample :
  all_digits (String_trim "0315") = true
  /\ String_trim "0315" <> ""
  /\ exists l',
       processLine "0315" (mkReadLoop "DTSTART;VALUE=DATE:2025" false 0) initialCalendar
       = Done (l', initialCalendar, [])
       /\ oldLine l' = "DTSTART;VALUE=DATE:2025"
       /\ oldLine l' <> "DTSTART;VALUE=DATE:20250315".
Proof.
  split; [reflexivity|]. split; [discriminate|].
  eexists. split; [reflexivity|]. split; [reflexivity | discriminate].
Qed.

(** The read after a digit line is joined to the text before it, and the
    joined line goes to [parseIcsLine]. *)
Lemma processLine_after_digits line l c :
  onlyDigitsInLine l = true ->
  all_digits (String_trim line) = false ->
  String.append (oldLine l) (String_trim line) <> "" ->
  calendar_ok c ->
  exists c' out,
    parseIcsLine (String.append (oldLine l) (String_trim line)) c = Done (c', out)
    /\ processLine line l c
       = Done (mkReadLoop "" false 0, c', [String.append (oldLine l) (String_trim line)]).
Proof.
  intros Hd Hnd Hne Hc. unfold processLine. rewrite Hd, Hnd. cbn [negb].
  destruct (String.eqb_spec (String.append (oldLine l) (String_trim line)) "") as [|_];
    [done|].
  destruct (parseIcsLine_ok (String.append (oldLine l) (String_trim line)) c Hc)
    as (c' & out & Hparse & _).
  rewrite Hparse. cbn. eauto.
Qed.

(** A date line cut in two by a line of digits is parsed as one line. *)
Example split_date_line :
  exists c',
    getIcs (GetReturned HTTP_CODE_OK
              [ "BEGIN:VEVENT"; "DTSTART;VALUE=DA"; "1000"; "TE:20250316";
                "SUMMARY:Bioabfall"; "END:VEVENT" ])
           initialCalendar
    = Done (c', true)
    /\ numberOfEvents c' = 1
    /\ events c' !! 0 = Some (Event.mk BIO 25 3 16).
Proof. eexists. split; [vm_compute; reflexivity|]. split; reflexivity. Qed.

(** * Further properties *)

(** ** The Event Extractor *)

Lemma getIcs_true http c c' :
  getIcs http c = Done (c', true) -> numberOfEvents c' <> 0.
Proof.
  destruct http as [|httpCode reads]; cbn [getIcs]; [done|].
  destruct (httpCode <=? 0)%Z; [done|].
  destruct (negb (httpCode =? HTTP_CODE_OK)%Z); [done|].
  intros H. apply bind_Done in H as (c1 & _ & H).
  destruct (numberOfEvents c1 =? 0) eqn:Hn; [done|].
  injection H as <-. by apply Nat.eqb_neq.
Qed.

(** X1: a fetch keeps the calendar well formed.  From a calendar within its
    array whose stored Events all have one of the five categories, every
    fetch returns, leaves such a calendar, and reports success only with 1
    to 100 stored Events. *)
Theorem X1_fetch_keeps_calendar_invariants (http : HttpExchange) (c : Calendar) :
  calendar_ok c ->
  stored_types_ok c ->
  exists c' ok,
    getIcs http c = Done (c', ok)
    /\ calendar_ok c'
    /\ stored_types_ok c'
    /\ (ok = true -> 1 <= numberOfEvents c' <= maxNumberOfEvents).
Proof.
  intros Hc Hty.
  destruct (getIcs_ok http c Hc) as (c' & ok & Hget & Hc').
  exists c', ok. split; [done|]. split; [done|].
  split; [by eapply getIcs_types|].
  intros ->. apply getIcs_true in Hget. destruct Hc'. lia.
Qed.

(** X1 at the first fetch of a calendar with seven events. *)
Lemma X1_fetch_keeps_calendar_invariants_witness :
  exists c' ok,
    getIcs (GetReturned HTTP_CODE_OK (sampleCalendar 7)) initialCalendar = Done (c', ok)
    /\ calendar_ok c'
    /\ stored_types_ok c'
    /\ (ok = true -> 1 <= numberOfEvents c' <= maxNumberOfEvents).
Proof.
  refine (X1_fetch_keeps_calendar_invariants
            (GetReturned HTTP_CODE_OK (sampleCalendar 7)) initialCalendar _ _).
  - split; [reflexivity | vm_compute; lia].
  - vm_compute. constructor.
Defined.

Lemma parseIcsLine_stored line c c' out :
  parseIcsLine line c = Done (c', out) ->
  storedEvents c' = storedEvents c
  \/ exists e, storedEvents c' = (storedEvents c ++ [e])%list.
Proof.
  unfold storedEvents, parseIcsLine. cbv zeta.
  case_decide as Hfull; [intros [= <- _]; by left|].
  destruct (contains line eventTrigger).
  { intros Hrun.
    apply bind_Done in Hrun as (evs1 & ->%array_modify_inv & Hrun).
    apply bind_Done in Hrun as (evs2 & ->%array_modify_inv & Hrun).
    apply bind_Done in Hrun as (evs3 & ->%array_modify_inv & Hrun).
    apply bind_Done in Hrun as (e & _ & Hrun). injection Hrun as <- _.
    left. cbn [events numberOfEvents]. by rewrite !take_alter_ge. }
  destruct (trigger c && contains line eventTypeTrigger); [|intros [= <- _]; by left].
  intros Hrun. apply bind_Done in Hrun as (evs & Hres & Hrun).
  apply resolveType_take in Hres.
  apply bind_Done in Hrun as (e & He & Hrun).
  unfold array_read in He. destruct (evs !! numberOfEvents c) as [e'|] eqn:Hl; [|done].
  injection He as ->.
  case_decide as Hlt.
  - apply bind_Done in Hrun as (label & _ & Hrun). injection Hrun as <- _.
    right. exists e. cbn [events numberOfEvents]. by rewrite (take_S_r _ _ _ Hl), Hres.
  - injection Hrun as <- _. left. cbn [events numberOfEvents]. by rewrite Hres.
Qed.

Lemma processLine_stored line l c l' c' emitted :
  processLine line l c = Done (l', c', emitted) ->
  storedEvents c `prefix_of` storedEvents c'.
Proof.
  unfold processLine. intros Hstep.
  destruct (negb (all_digits (String_trim line))); [|by injection Hstep as _ <- _].
  apply bind_Done in Hstep as ([c2 em] & Hparse & Hstep). injection Hstep as _ <- _.
  destruct (negb (String.eqb _ "")); [|by injection Hparse as <- _].
  apply bind_Done in Hparse as ([c3 out] & Hparse & Heq). injection Heq as <- _.
  apply parseIcsLine_stored in Hparse as [->|[e ->]]; [done | by apply prefix_app_r].
Qed.

Lemma readLoop_stored reads : forall l c c',
  readLoop reads l c = Done c' -> storedEvents c `prefix_of` storedEvents c'.
Proof.
  induction reads as [|line rest IH]; intros l c c' H; cbn [readLoop] in H.
  { by injection H as <-. }
  destruct (String.length line =? 0).
  { destruct (2 <=? S (zeroLines l)); [by injection H as <- | by eapply IH]. }
  apply bind_Done in H as ([[l1 c1] emitted] & Hstep & H).
  etrans; [by eapply processLine_stored | by eapply IH].
Qed.

(** X2: within a fetch the list of stored Events only grows at its end.
    Whatever the read loop is given, the Events stored when it starts are
    the first Events stored when it ends, unchanged and in the same
    order. *)
Theorem X2_read_loop_appends (reads : list string) (l : ReadLoop) (c c' : Calendar) :
  readLoop reads l c = Done c' ->
  storedEvents c `prefix_of` storedEvents c'
  /\ (numberOfEvents c <= length (events c) -> numberOfEvents c <= numberOfEvents c').
Proof.
  intros H. apply readLoop_stored in H. split; [done|].
  intros Hn. apply prefix_length in H. unfold storedEvents in H.
  rewrite !length_take in H. lia.
Qed.

(** X2 at a read loop that starts with two stored Events. *)
Lemma X2_read_loop_appends_witness :
  storedEvents (calendarOf [Event.mk PAPER 25 3 1; Event.mk BIO 25 3 8])
    `prefix_of`
  [Event.mk PAPER 25 3 1; Event.mk BIO 25 3 8; Event.mk RESIDUAL 25 3 15].
Proof.
  refine (proj1 (X2_read_loop_appends
                   ["DTSTART;VALUE=DATE:20250315"; "SUMMARY:Restabfall"; "END:VEVENT"]
                   (mkReadLoop "" false 0)
                   (calendarOf [Event.mk PAPER 25 3 1; Event.mk BIO 25 3 8])
                   (mkCalendar
                      (<[2 := Event.mk RESIDUAL 25 3 15]>
                         (events (calendarOf [Event.mk PAPER 25 3 1; Event.mk BIO 25 3 8])))
                      3 false) _)).
  vm_compute. reflexivity.
Defined.

Lemma set_type_set_type t1 t2 e :
  Event.set_type t1 (Event.set_type t2 e) = Event.set_type t1 e.
Proof. done. Qed.

Lemma resolveType_cons line i rest evs n :
  resolveType line (i :: rest) evs n
  = (evs1 ← array_modify "events" (Event.set_type COUNT) evs n;
     label ← array_read "TrashTypeStrings" TrashTypeStrings i;
     if contains line label
     then array_modify "events" (Event.set_type (TrashType_of_nat i)) evs1 n
     else resolveType line rest evs1 n).
Proof. reflexivity. Qed.

Lemma firstContained_cons line i rest :
  firstContained line (i :: rest)
  = if contains line (nth i TrashTypeStrings "") then Some i
    else firstContained line rest.
Proof. reflexivity. Qed.

Lemma resolveType_result line rest : forall i evs n e,
  evs !! n = Some e ->
  Forall (fun j => j < length TrashTypeStrings) (i :: rest) ->
  resolveType line (i :: rest) evs n
  = Done (<[n := Event.set_type
                   (match firstContained line (i :: rest) with
                    | Some j => TrashType_of_nat j
                    | None => COUNT
                    end) e]> evs).
Proof.
  induction rest as [|i' rest IH]; intros i evs n e He Hall;
    apply Forall_cons_iff in Hall as [Hi Hrest];
    pose proof (lookup_lt_Some _ _ _ He) as Hn;
    rewrite resolveType_cons, firstContained_cons;
    rewrite array_modify_Done by done; cbn [mbind outcome_bind];
    rewrite (alter_as_insert _ _ _ _ He);
    destruct (lookup_lt_is_Some_2 TrashTypeStrings i Hi) as [label Hl];
    rewrite (array_read_Done _ _ _ _ Hl); cbn [mbind outcome_bind];
    rewrite (nth_lookup_Some _ _ _ _ Hl);
    destruct (contains line label).
  - rewrite array_modify_Done by (by rewrite length_insert).
    rewrite (alter_as_insert _ _ _ (Event.set_type COUNT e))
      by (by apply list_lookup_insert_eq).
    by rewrite list_insert_insert_eq, set_type_set_type.
  - done.
  - rewrite array_modify_Done by (by rewrite length_insert).
    rewrite (alter_as_insert _ _ _ (Event.set_type COUNT e))
      by (by apply list_lookup_insert_eq).
    by rewrite list_insert_insert_eq, set_type_set_type.
  - rewrite (IH i' _ n (Event.set_type COUNT e)); [|by apply list_lookup_insert_eq|done].
    by rewrite list_insert_insert_eq, set_type_set_type.
Qed.

Lemma firstContained_seq_Some line i label : forall k m,
  k <= i < k + m ->
  TrashTypeStrings !! i = Some label ->
  contains line label = true ->
  (forall j label', k <= j < i -> TrashTypeStrings !! j = Some label' ->
                    contains line label' = false) ->
  firstContained line (seq k m) = Some i.
Proof.
  intros k m. revert k. induction m as [|m IH]; intros k Hi Hl Hc Hfirst; [lia|].
  cbn [seq firstContained].
  destruct (decide (k = i)) as [->|Hne].
  - by rewrite (nth_lookup_Some _ _ _ _ Hl), Hc.
  - destruct (TrashTypeStrings !! k) as [label'|] eqn:Hk.
    + rewrite (nth_lookup_Some _ _ _ _ Hk), (Hfirst k label') by (done || lia).
      apply IH; [lia|done|done|]. intros j l' Hj. apply Hfirst. lia.
    + apply lookup_ge_None in Hk. apply lookup_lt_Some in Hl. lia.
Qed.

Lemma firstContained_seq_None line : forall k m,
  (forall j label, TrashTypeStrings !! j = Some label -> contains line label = false) ->
  k + m <= length TrashTypeStrings ->
  firstContained line (seq k m) = None.
Proof.
  intros k m. revert k. induction m as [|m IH]; intros k Hnone Hlen; [done|].
  cbn [seq firstContained].
  destruct (lookup_lt_is_Some_2 TrashTypeStrings k) as [label Hl]; [lia|].
  rewrite (nth_lookup_Some _ _ _ _ Hl), (Hnone k label Hl). apply IH; [done | lia].
Qed.

Lemma parseIcsLine_category_result line c e :
  numberOfEvents c < maxNumberOfEvents ->
  events c !! numberOfEvents c = Some e ->
  contains line eventTrigger = false ->
  trigger c = true ->
  contains line eventTypeTrigger = true ->
  exists out,
    parseIcsLine line c
    = Done (match firstContained line (seq 0 (TrashType_to_nat COUNT)) with
            | Some j =>
                mkCalendar (<[numberOfEvents c := Event.set_type (TrashType_of_nat j) e]>
                              (events c))
                           (if decide (j < TrashType_to_nat COUNT)
                            then S (numberOfEvents c) else numberOfEvents c)
                           false
            | None =>
                mkCalendar (<[numberOfEvents c := Event.set_type COUNT e]> (events c))
                           (numberOfEvents c) false
            end, out).
Proof.
  intros Hfree He Hnd Ht Hs. unfold parseIcsLine. cbv zeta.
  rewrite decide_False by lia. rewrite Hnd, Ht, Hs. cbn [andb].
  pose proof (lookup_lt_Some _ _ _ He) as Hn.
  change (seq 0 (TrashType_to_nat COUNT)) with (0 :: seq 1 4).
  rewrite (resolveType_result line (seq 1 4) 0 _ _ e He).
  2: { apply Forall_forall. intros j Hj. change (0 :: seq 1 4) with (seq 0 5) in Hj.
       apply in_seq in Hj. simpl. lia. }
  cbn [mbind outcome_bind].
  rewrite (array_read_Done _ _ _ _ (list_lookup_insert_eq _ _ _ Hn)).
  cbn [mbind outcome_bind Event.type Event.set_type].
  destruct (firstContained line (0 :: seq 1 4)) as [j|] eqn:Hfc.
  - assert (j < 5) as Hj.
    { clear -Hfc. change (0 :: seq 1 4) with (seq 0 5) in Hfc.
      assert (forall k m, firstContained line (seq k m) = Some j -> j < k + m) as Hgen.
      { intros k m. revert k. induction m as [|m IH]; intros k; cbn [seq firstContained];
          [done|].
        destruct (contains line _); [intros [= <-]; lia|].
        intros H%IH. lia. }
      by apply Hgen in Hfc. }
    rewrite TrashType_to_of_nat by done.
    rewrite !decide_True by (simpl; lia).
    destruct (lookup_lt_is_Some_2 TrashTypeStrings j) as [label Hl]; [simpl; lia|].
    rewrite (array_read_Done _ _ _ _ Hl). cbn [mbind outcome_bind]. eauto.
  - rewrite decide_False by (simpl; lia). eauto.
Qed.

(** X3: the first label in enumeration order decides the category.  When a
    date is pending and a category line contains the label of index [i] and
    no label of a smaller index, [parseIcsLine] commits slot
    [numberOfEvents] with category [i] and the date fields the slot holds,
    increments the count and clears [trigger], whatever other labels the
    line also contains. *)
Theorem X3_first_label_wins (line : string) (c : Calendar) (e : Event.t)
    (i : nat) (label : string) :
  numberOfEvents c < maxNumberOfEvents ->
  events c !! numberOfEvents c = Some e ->
  trigger c = true ->
  contains line eventTrigger = false ->
  contains line eventTypeTrigger = true ->
  TrashTypeStrings !! i = Some label ->
  contains line label = true ->
  (forall j label', j < i -> TrashTypeStrings !! j = Some label' ->
                    contains line label' = false) ->
  exists out,
    parseIcsLine line c
    = Done (mkCalendar
              (<[numberOfEvents c :=
                   Event.mk (TrashType_of_nat i) (Event.year e) (Event.month e)
                            (Event.day e)]> (events c))
              (S (numberOfEvents c)) false,
            out).
Proof.
  intros Hfree He Ht Hnd Hs Hl Hc Hfirst.
  destruct (parseIcsLine_category_result line c e Hfree He Hnd Ht Hs) as [out Hrun].
  pose proof (lookup_lt_Some _ _ _ Hl) as Hi. simpl in Hi.
  change (TrashType_to_nat COUNT) with 5 in Hrun.
  rewrite (firstContained_seq_Some line i label 0 5) in Hrun; [|simpl; lia|done|done|].
  2: { intros j label' Hj. apply Hfirst. lia. }
  rewrite decide_True in Hrun by (simpl; lia). eauto.
Qed.

(** X3 at a line that names Bioabfall and Papiertonne. *)
Lemma X3_first_label_wins_witness :
  exists out,
    parseIcsLine "SUMMARY:Papiertonne und Bioabfall"
                 (mkCalendar (events (calendarOf [Event.mk RESIDUAL 25 3 15])) 0 true)
    = Done (mkCalendar
              (<[0 := Event.mk BIO 25 3 15]> (events (calendarOf [Event.mk RESIDUAL 25 3 15])))
              1 false,
            out).
Proof.
  refine (X3_first_label_wins "SUMMARY:Papiertonne und Bioabfall"
            (mkCalendar (events (calendarOf [Event.mk RESIDUAL 25 3 15])) 0 true)
            (Event.mk RESIDUAL 25 3 15) 1 "Bioabfall" _ _ _ _ _ _ _ _).
  - vm_compute. lia.
  - reflexivity.
  - reflexivity.
  - vm_compute. reflexivity.
  - vm_compute. reflexivity.
  - reflexivity.
  - vm_compute. reflexivity.
  - intros j label' Hj Hl. destruct j as [|j]; [|lia].
    injection Hl as <-. vm_compute. reflexivity.
Defined.

(** X4: a category line without a known label drops the pending date.
    When a date is pending and the line contains the category marker but
    none of the five labels, the count stays, [trigger] is cleared, the
    free slot is marked with COUNT, and the line prints "Failure". *)
Theorem X4_unknown_label_discards (line : string) (c : Calendar) (e : Event.t) :
  numberOfEvents c < maxNumberOfEvents ->
  events c !! numberOfEvents c = Some e ->
  trigger c = true ->
  contains line eventTrigger = false ->
  contains line eventTypeTrigger = true ->
  (forall j label, TrashTypeStrings !! j = Some label -> contains line label = false) ->
  parseIcsLine line c
  = Done (mkCalendar (<[numberOfEvents c := Event.set_type COUNT e]> (events c))
                     (numberOfEvents c) false,
          [SerialText "Failure"; SerialNewline]).
Proof.
  intros Hfree He Ht Hnd Hs Hnone. unfold parseIcsLine. cbv zeta.
  rewrite decide_False by lia. rewrite Hnd, Ht, Hs. cbn [andb].
  pose proof (lookup_lt_Some _ _ _ He) as Hn.
  change (seq 0 (TrashType_to_nat COUNT)) with (0 :: seq 1 4).
  rewrite (resolveType_result line (seq 1 4) 0 _ _ e He).
  2: { apply Forall_forall. intros j Hj. change (0 :: seq 1 4) with (seq 0 5) in Hj.
       apply in_seq in Hj. simpl. lia. }
  change (0 :: seq 1 4) with (seq 0 5).
  rewrite (firstContained_seq_None line 0 5 Hnone) by (simpl; lia).
  cbn [mbind outcome_bind].
  rewrite (array_read_Done _ _ _ _ (list_lookup_insert_eq _ _ _ Hn)).
  cbn [mbind outcome_bind Event.type Event.set_type].
  by rewrite decide_False by (simpl; lia).
Qed.

(** X4 at a category line for a collection the sketch does not know. *)
Lemma X4_unknown_label_discards_witness :
  parseIcsLine "SUMMARY:Schadstoffmobil"
               (mkCalendar (events (calendarOf [Event.mk RESIDUAL 25 3 15])) 0 true)
  = Done (mkCalendar
            (<[0 := Event.mk COUNT 25 3 15]> (events (calendarOf [Event.mk RESIDUAL 25 3 15])))
            0 false,
          [SerialText "Failure"; SerialNewline]).
Proof.
  refine (X4_unknown_label_discards "SUMMARY:Schadstoffmobil"
            (mkCalendar (events (calendarOf [Event.mk RESIDUAL 25 3 15])) 0 true)
            (Event.mk RESIDUAL 25 3 15) _ _ _ _ _ _).
  - vm_compute. lia.
  - reflexivity.
  - reflexivity.
  - vm_compute. reflexivity.
  - vm_compute. reflexivity.
  - intros j label Hl.
    do 5 (destruct j as [|j]; [injection Hl as <-; vm_compute; reflexivity|]).
    discriminate.
Defined.

(** ** Dates *)

Lemma digits_value_digit acc n s :
  digits_value acc (String (digit n) s)
  = digits_value (10 * acc + Z.of_nat (n mod 10))%Z s.
Proof.
  unfold digit. pose proof (Nat.mod_upper_bound n 10 ltac:(done)) as Hk.
  generalize dependent (n mod 10). intros k Hk.
  do 10 (destruct k as [|k]; [reflexivity|]). lia.
Qed.

Lemma atoi_digit n s :
  atoi (c_str (String (digit n) s)) = digits_value (Z.of_nat (n mod 10)) (c_str s).
Proof.
  unfold digit. pose proof (Nat.mod_upper_bound n 10 ltac:(done)) as Hk.
  generalize dependent (n mod 10). intros k Hk.
  do 10 (destruct k as [|k]; [reflexivity|]). lia.
Qed.

Lemma c_str_digit n s : c_str (String (digit n) s) = String (digit n) (c_str s).
Proof.
  unfold digit. pose proof (Nat.mod_upper_bound n 10 ltac:(done)) as Hk.
  generalize dependent (n mod 10). intros k Hk.
  do 10 (destruct k as [|k]; [reflexivity|]). lia.
Qed.

Lemma atoi_four_digits y :
  y < 100 * 100 -> atoi (c_str (four_digits y)) = Z.of_nat y.
Proof.
  intros Hy. unfold four_digits.
  rewrite atoi_digit, !c_str_digit, !digits_value_digit. cbn [c_str digits_value].
  pose proof (Nat.div_mod_eq y 10) as H0.
  pose proof (Nat.div_mod_eq (y / 10) 10) as H1.
  pose proof (Nat.div_mod_eq (y / 10 / 10) 10) as H2.
  pose proof (Nat.div_mod_eq (y / 10 / 10 / 10) 10) as H3.
  pose proof (Nat.mod_upper_bound y 10 ltac:(done)).
  pose proof (Nat.mod_upper_bound (y / 10) 10 ltac:(done)).
  pose proof (Nat.mod_upper_bound (y / 10 / 10) 10 ltac:(done)).
  pose proof (Nat.mod_upper_bound (y / 10 / 10 / 10) 10 ltac:(done)).
  generalize dependent (y mod 10). generalize dependent (y / 10 mod 10).
  generalize dependent (y / 10 / 10 mod 10). generalize dependent (y / 10 / 10 / 10 mod 10).
  generalize dependent (y / 10 / 10 / 10 / 10). generalize dependent (y / 10 / 10 / 10).
  generalize dependent (y / 10 / 10). generalize dependent (y / 10).
  intros. lia.
Qed.

Lemma atoi_two_digits m :
  m < 100 -> atoi (c_str (String (digit (m / 10)) (String (digit m) ""))) = Z.of_nat m.
Proof.
  intros Hm. rewrite atoi_digit, !c_str_digit, !digits_value_digit. cbn [c_str digits_value].
  pose proof (Nat.div_mod_eq m 10) as H0.
  pose proof (Nat.div_mod_eq (m / 10) 10) as H1.
  pose proof (Nat.mod_upper_bound m 10 ltac:(done)).
  pose proof (Nat.mod_upper_bound (m / 10) 10 ltac:(done)).
  generalize dependent (m mod 10). generalize dependent (m / 10 mod 10).
  generalize dependent (m / 10 / 10). generalize dependent (m / 10).
  intros. lia.
Qed.

Lemma contains_marker_prefix rest :
  contains (String.append eventTrigger rest) eventTrigger = true.
Proof.
  unfold contains.
  change (c_str (String.append eventTrigger rest))
    with (String.append eventTrigger (c_str rest)).
  destruct (c_str rest); reflexivity.
Qed.

Lemma substrings_after_marker a b c d e f g h rest :
  let line := String.append eventTrigger
                (String a (String b (String c (String d
                   (String e (String f (String g (String h rest)))))))) in
  String_substring line (String.length eventTrigger) (String.length eventTrigger + 4)
  = String a (String b (String c (String d "")))
  /\ String_substring line (String.length eventTrigger + 4)
                      (String.length eventTrigger + 6)
     = String e (String f "")
  /\ String_substring line (String.length eventTrigger + 6)
                      (String.length eventTrigger + 8)
     = String g (String h "").
Proof. repeat split; try reflexivity. destruct rest; reflexivity. Qed.

Lemma parseIcsLine_dateLine y m d rest c e :
  y < 100 * 100 -> m < 100 -> d < 100 ->
  numberOfEvents c < maxNumberOfEvents ->
  events c !! numberOfEvents c = Some e ->
  exists out,
    parseIcsLine (dateLine y m d rest) c
    = Done (mkCalendar
              (<[numberOfEvents c :=
                   Event.mk (Event.type e) ((Z.of_nat y - 2000) mod 256)
                            (Z.of_nat m) (Z.of_nat d)]> (events c))
              (numberOfEvents c) true,
            out).
Proof.
  intros Hy Hm Hd Hfree He.
  pose proof (lookup_lt_Some _ _ _ He) as Hn.
  unfold parseIcsLine. cbv zeta. rewrite decide_False by lia.
  assert (contains (dateLine y m d rest) eventTrigger = true) as ->
    by apply contains_marker_prefix.
  destruct (substrings_after_marker
              (digit (y / 10 / 10 / 10)) (digit (y / 10 / 10)) (digit (y / 10)) (digit y)
              (digit (m / 10)) (digit m) (digit (d / 10)) (digit d) rest)
    as (Hys & Hms & Hds).
  change (String_substring (dateLine y m d rest) (String.length eventTrigger)
            (String.length eventTrigger + 4) = four_digits y) in Hys.
  change (String_substring (dateLine y m d rest) (String.length eventTrigger + 4)
            (String.length eventTrigger + 6)
          = String (digit (m / 10)) (String (digit m) "")) in Hms.
  change (String_substring (dateLine y m d rest) (String.length eventTrigger + 6)
            (String.length eventTrigger + 8)
          = String (digit (d / 10)) (String (digit d) "")) in Hds.
  rewrite Hys, Hms, Hds.
  rewrite atoi_four_digits, !atoi_two_digits by done.
  rewrite array_modify_Done by done. cbn [mbind outcome_bind].
  rewrite (alter_as_insert _ _ _ _ He).
  rewrite array_modify_Done by (by rewrite length_insert). cbn [mbind outcome_bind].
  rewrite (alter_as_insert _ _ _ _ (list_lookup_insert_eq _ _ _ Hn)).
  rewrite list_insert_insert_eq.
  rewrite array_modify_Done by (by rewrite length_insert). cbn [mbind outcome_bind].
  rewrite (alter_as_insert _ _ _ _ (list_lookup_insert_eq _ _ _ Hn)).
  rewrite list_insert_insert_eq.
  rewrite (array_read_Done _ _ _ _ (list_lookup_insert_eq _ _ _ Hn)).
  cbn [mbind outcome_bind]. eexists. do 3 f_equal.
  unfold Event.set_day, Event.set_month, Event.set_year, to_uint8. cbn.
  rewrite Zminus_mod_idemp_l, (Z.mod_small (Z.of_nat m)), (Z.mod_small (Z.of_nat d))
    by lia.
  done.
Qed.

(** X5: what a date line stores.  A line that starts with the date marker
    followed by the digits YYYYMMDD (and anything after them) writes into
    the free slot the year offset (YYYY - 2000) mod 256, the month MM and
    the day DD, keeps the slot's category and the count, and sets
    [trigger].  No calendar check is made: month 13 or day 32 are stored as
    they are, and years outside 2000..2255 wrap around. *)
Theorem X5_date_line_fields (y m d : nat) (rest : string) (c : Calendar) (e : Event.t) :
  y < 100 * 100 -> m < 100 -> d < 100 ->
  numberOfEvents c < maxNumberOfEvents ->
  events c !! numberOfEvents c = Some e ->
  exists out,
    parseIcsLine (dateLine y m d rest) c
    = Done (mkCalendar
              (<[numberOfEvents c :=
                   Event.mk (Event.type e) ((Z.of_nat y - 2000) mod 256)
                            (Z.of_nat m) (Z.of_nat d)]> (events c))
              (numberOfEvents c) true,
            out).
Proof. apply parseIcsLine_dateLine. Qed.

(** X5 at 32 December 2281, which is stored as day 32 of month 12 of year
    offset 25. *)
Lemma X5_date_line_fields_witness :
  exists out,
    parseIcsLine "DTSTART;VALUE=DATE:22811232" initialCalendar
    = Done (mkCalendar (<[0 := Event.mk RESIDUAL 25 12 32]> (events initialCalendar)) 0 true,
            out).
Proof.
  refine (X5_date_line_fields 2281 12 32 "" initialCalendar (Event.mk RESIDUAL 0 0 0)
            _ _ _ _ _).
  - vm_compute. lia.
  - lia.
  - lia.
  - vm_compute. lia.
  - reflexivity.
Defined.

Lemma firstContained_seq_bound line j : forall k m,
  firstContained line (seq k m) = Some j -> k <= j < k + m.
Proof.
  intros k m. revert k. induction m as [|m IH]; intros k; cbn [seq firstContained]; [done|].
  destruct (contains line _); [intros [= <-]; lia|].
  intros H%IH. lia.
Qed.

Lemma firstContained_seq_exists line i label : forall k m,
  k <= i < k + m ->
  TrashTypeStrings !! i = Some label ->
  contains line label = true ->
  exists j, firstContained line (seq k m) = Some j.
Proof.
  intros k m. revert k. induction m as [|m IH]; intros k Hi Hl Hc; [lia|].
  cbn [seq firstContained].
  destruct (contains line (nth k TrashTypeStrings "")) eqn:Hk; [eauto|].
  apply IH; [|done|done].
  destruct (decide (k = i)) as [->|]; [|lia].
  rewrite (nth_lookup_Some _ _ _ _ Hl) in Hk. congruence.
Qed.

(** X6: a parsed Event is found on its own day and on no other.  For a
    date line of a day in the years 2000 to 2255 followed by a category
    line with a known label, the two calls of [parseIcsLine] store one more
    Event, and [isEventOnDate] holds for it exactly at the [struct tm] of
    that day (year - 1900, month - 1, day). *)
Theorem X6_parsed_event_matches_its_day (y m d : nat) (rest catLine : string)
    (c : Calendar) :
  calendar_ok c ->
  numberOfEvents c < maxNumberOfEvents ->
  2000 <= y <= 2255 -> m < 100 -> d < 100 ->
  contains catLine eventTrigger = false ->
  contains catLine eventTypeTrigger = true ->
  (exists i label, TrashTypeStrings !! i = Some label /\ contains catLine label = true) ->
  exists c' ev,
    feed [dateLine y m d rest; catLine] c = Done c'
    /\ numberOfEvents c' = S (numberOfEvents c)
    /\ events c' !! numberOfEvents c = Some ev
    /\ Event.type ev <> COUNT
    /\ forall t, isEventOnDate ev t = true <-> t = tm_of_date y m d.
Proof.
  intros [Hlen Hcount] Hfree Hy Hm Hd Hnd Hs (i & label & Hl & Hc).
  destruct (lookup_lt_is_Some_2 (events c) (numberOfEvents c)) as [e He]; [lia|].
  destruct (parseIcsLine_dateLine y m d rest c e) as [out1 Hdate];
    [lia | done | done | done | done |].
  cbn [feed]. rewrite Hdate. cbn [mbind outcome_bind].
  pose (e1 := Event.mk (Event.type e) ((Z.of_nat y - 2000) mod 256) (Z.of_nat m) (Z.of_nat d)).
  destruct (parseIcsLine_category_result catLine
              (mkCalendar (<[numberOfEvents c := e1]> (events c)) (numberOfEvents c) true) e1)
    as [out2 Hcat]; cbn [numberOfEvents events trigger]; [done| |done|done|done|].
  { apply list_lookup_insert_eq. lia. }
  cbn [numberOfEvents events trigger] in Hcat. fold e1. rewrite Hcat.
  cbn [mbind outcome_bind].
  pose proof (lookup_lt_Some _ _ _ Hl) as Hi. simpl in Hi.
  destruct (firstContained_seq_exists catLine i label 0 (TrashType_to_nat COUNT))
    as [j Hj]; [simpl; lia | done | done |].
  rewrite Hj. apply firstContained_seq_bound in Hj. simpl in Hj.
  rewrite decide_True by (simpl; lia).
  eexists _, _. split; [reflexivity|]. cbn [numberOfEvents events].
  split; [done|]. split.
  { apply list_lookup_insert_eq. rewrite length_insert. lia. }
  split.
  { cbn. intros Heq. apply (f_equal TrashType_to_nat) in Heq.
    rewrite TrashType_to_of_nat in Heq by lia. simpl in Heq. lia. }
  intros [ty tmon td]. unfold isEventOnDate, tm_of_date. cbn.
  rewrite Z.mod_small by lia.
  rewrite !andb_true_iff, !Z.eqb_eq. split.
  - intros [[H1 H2] H3]. f_equal; lia.
  - intros [= -> -> ->]. lia.
Qed.

(** X6 at the pair for 15 March 2025, residual waste. *)
Lemma X6_parsed_event_matches_its_day_witness :
  exists c' ev,
    feed ["DTSTART;VALUE=DATE:20250315"; "SUMMARY:Restabfall"] initialCalendar = Done c'
    /\ numberOfEvents c' = 1
    /\ events c' !! 0 = Some ev
    /\ Event.type ev <> COUNT
    /\ forall t, isEventOnDate ev t = true <-> t = mk_tm 125 2 15.
Proof.
  refine (X6_parsed_event_matches_its_day 2025 3 15 "" "SUMMARY:Restabfall"
            initialCalendar _ _ _ _ _ _ _ _).
  - split; [reflexivity | vm_compute; lia].
  - vm_compute. lia.
  - lia.
  - lia.
  - lia.
  - vm_compute. reflexivity.
  - vm_compute. reflexivity.
  - exists 0, "Restabfall". split; vm_compute; reflexivity.
Defined.

(** ** A fetch does not depend on stale array contents *)

Lemma parseIcsLine_date_uniform line :
  contains line eventTrigger = true ->
  exists y m d out, forall c e,
    numberOfEvents c < maxNumberOfEvents ->
    events c !! numberOfEvents c = Some e ->
    parseIcsLine line c
    = Done (mkCalendar (<[numberOfEvents c := Event.mk (Event.type e) y m d]> (events c))
                       (numberOfEvents c) true,
            out).
Proof.
  intros Hd. eexists _, _, _, _. intros c e Hfree He.
  pose proof (lookup_lt_Some _ _ _ He) as Hn.
  unfold parseIcsLine. cbv zeta. rewrite decide_False by lia. rewrite Hd.
  rewrite array_modify_Done by done. cbn [mbind outcome_bind].
  rewrite (alter_as_insert _ _ _ _ He).
  rewrite array_modify_Done by (by rewrite length_insert). cbn [mbind outcome_bind].
  rewrite (alter_as_insert _ _ _ _ (list_lookup_insert_eq _ _ _ Hn)).
  rewrite list_insert_insert_eq.
  rewrite array_modify_Done by (by rewrite length_insert). cbn [mbind outcome_bind].
  rewrite (alter_as_insert _ _ _ _ (list_lookup_insert_eq _ _ _ Hn)).
  rewrite list_insert_insert_eq.
  rewrite (array_read_Done _ _ _ _ (list_lookup_insert_eq _ _ _ Hn)).
  cbn [mbind outcome_bind].
  unfold Event.set_day, Event.set_month, Event.set_year.
  cbn [Event.year Event.month Event.day Event.type].
  reflexivity.
Qed.

Lemma parseIcsLine_category_uniform line :
  contains line eventTrigger = false ->
  contains line eventTypeTrigger = true ->
  exists out, forall c e,
    numberOfEvents c < maxNumberOfEvents ->
    events c !! numberOfEvents c = Some e ->
    trigger c = true ->
    parseIcsLine line c
    = Done (match firstContained line (seq 0 5) with
            | Some j =>
                mkCalendar (<[numberOfEvents c := Event.set_type (TrashType_of_nat j) e]>
                              (events c))
                           (S (numberOfEvents c)) false
            | None =>
                mkCalendar (<[numberOfEvents c := Event.set_type COUNT e]> (events c))
                           (numberOfEvents c) false
            end, out).
Proof.
  intros Hnd Hs.
  exists (match firstContained line (seq 0 5) with
          | Some j => [SerialText (nth j TrashTypeStrings ""); SerialNewline]
          | None => [SerialText "Failure"; SerialNewline]
          end).
  intros c e Hfree He Ht. unfold parseIcsLine. cbv zeta.
  rewrite decide_False by lia. rewrite Hnd, Ht, Hs. cbn [andb].
  pose proof (lookup_lt_Some _ _ _ He) as Hn.
  change (seq 0 (TrashType_to_nat COUNT)) with (0 :: seq 1 4).
  rewrite (resolveType_result line (seq 1 4) 0 _ _ e He).
  2: { apply Forall_forall. intros j Hj. change (0 :: seq 1 4) with (seq 0 5) in Hj.
       apply in_seq in Hj. simpl. lia. }
  change (0 :: seq 1 4) with (seq 0 5).
  cbn [mbind outcome_bind].
  rewrite (array_read_Done _ _ _ _ (list_lookup_insert_eq _ _ _ Hn)).
  cbn [mbind outcome_bind Event.type Event.set_type].
  destruct (firstContained line (seq 0 5)) as [j|] eqn:Hfc.
  - apply firstContained_seq_bound in Hfc.
    rewrite TrashType_to_of_nat by lia.
    rewrite decide_True by (simpl; lia).
    destruct (lookup_lt_is_Some_2 TrashTypeStrings j) as [label Hl]; [simpl; lia|].
    rewrite (array_read_Done _ _ _ _ Hl). cbn [mbind outcome_bind].
    by rewrite (nth_lookup_Some _ _ _ _ Hl).
  - by rewrite decide_False by (simpl; lia).
Qed.

Lemma parseIcsLine_other line c :
  numberOfEvents c < maxNumberOfEvents ->
  contains line eventTrigger = false ->
  trigger c && contains line eventTypeTrigger = false ->
  parseIcsLine line c = Done (c, []).
Proof.
  intros Hfree Hnd Hs. unfold parseIcsLine. cbv zeta.
  rewrite decide_False by lia. by rewrite Hnd, Hs.
Qed.

Lemma parseIcsLine_sim line c1 c2 :
  calendar_ok c1 -> calendar_ok c2 -> calendar_sim c1 c2 ->
  exists c1' c2' out,
    parseIcsLine line c1 = Done (c1', out)
    /\ parseIcsLine line c2 = Done (c2', out)
    /\ calendar_ok c1' /\ calendar_ok c2' /\ calendar_sim c1' c2'.
Proof.
  intros [Hl1 Hn1] [Hl2 Hn2] Hsim. pose proof Hsim as (Hn & Ht & Hst & Hpend).
  destruct (decide (maxNumberOfEvents <= numberOfEvents c1)) as [Hfull|Hfree].
  { exists c1, c2. eexists. rewrite !parseIcsLine_full by lia.
    split; [done|]. split; [done|]. split; [by split|]. split; [by split | exact Hsim]. }
  destruct (lookup_lt_is_Some_2 (events c1) (numberOfEvents c1)) as [e1 He1]; [lia|].
  destruct (lookup_lt_is_Some_2 (events c2) (numberOfEvents c2)) as [e2 He2]; [lia|].
  unfold storedEvents in Hst.
  destruct (contains line eventTrigger) eqn:Hd.
  { destruct (parseIcsLine_date_uniform line Hd) as (y & m & d & out & Hrun).
    eexists _, _, out. rewrite (Hrun c1 e1), (Hrun c2 e2) by (done || lia).
    split; [done|]. split; [done|].
    split; [split; cbn; [by rewrite length_insert | lia]|].
    split; [split; cbn; [by rewrite length_insert | lia]|].
    unfold calendar_sim, storedEvents. cbn [numberOfEvents events trigger].
    split; [done|]. split; [done|].
    split; [by rewrite !take_insert_ge|].
    intros _ e1' e2'.
    rewrite !list_lookup_insert_eq by lia. intros [= <-] [= <-]. by repeat split. }
  destruct (trigger c1 && contains line eventTypeTrigger) eqn:Hs.
  2: { exists c1, c2, []. rewrite !parseIcsLine_other by (done || lia || (by rewrite <- Ht)).
       split; [done|]. split; [done|]. split; [by split|]. split; [by split | exact Hsim]. }
  apply andb_true_iff in Hs as [Ht1 Hs].
  destruct (parseIcsLine_category_uniform line Hd Hs) as (out & Hrun).
  eexists _, _, out. rewrite (Hrun c1 e1), (Hrun c2 e2) by (done || lia || congruence).
  split; [done|]. split; [done|].
  destruct (Hpend Ht1 e1 e2 He1 He2) as (Hy & Hm & Hday).
  destruct (firstContained line (seq 0 5)) as [j|].
  - split; [split; cbn; [by rewrite length_insert | unfold maxNumberOfEvents in *; lia]|].
    split; [split; cbn; [by rewrite length_insert | unfold maxNumberOfEvents in *; lia]|].
    unfold calendar_sim, storedEvents. cbn [numberOfEvents events trigger].
    split; [lia|]. split; [done|]. split; [|done].
    rewrite <- Hn in Hst |- *.
    rewrite (take_S_r _ _ (Event.set_type (TrashType_of_nat j) e1))
      by (apply list_lookup_insert_eq; lia).
    rewrite (take_S_r _ _ (Event.set_type (TrashType_of_nat j) e2))
      by (apply list_lookup_insert_eq; lia).
    rewrite !take_insert_ge by lia. rewrite Hst.
    unfold Event.set_type. by rewrite Hy, Hm, Hday.
  - split; [split; cbn; [by rewrite length_insert | lia]|].
    split; [split; cbn; [by rewrite length_insert | lia]|].
    unfold calendar_sim, storedEvents. cbn [numberOfEvents events trigger].
    split; [done|]. split; [done|]. split; [by rewrite !take_insert_ge | done].
Qed.

Lemma processLine_sim line l c1 c2 :
  calendar_ok c1 -> calendar_ok c2 -> calendar_sim c1 c2 ->
  exists l' c1' c2' emitted,
    processLine line l c1 = Done (l', c1', emitted)
    /\ processLine line l c2 = Done (l', c2', emitted)
    /\ calendar_ok c1' /\ calendar_ok c2' /\ calendar_sim c1' c2'.
Proof.
  intros Hok1 Hok2 Hsim. unfold processLine.
  destruct (negb (all_digits (String_trim line))).
  2: { eexists _, c1, c2, _. by repeat (split; [done|]). }
  match goal with |- context [negb (String.eqb ?s "")] =>
    destruct (negb (String.eqb s ""));
      [destruct (parseIcsLine_sim s c1 c2 Hok1 Hok2 Hsim)
         as (c1' & c2' & out & -> & -> & Hok1' & Hok2' & Hsim')|]
  end.
  - cbn. eexists _, c1', c2', _. by repeat (split; [done|]).
  - cbn. eexists _, c1, c2, _. by repeat (split; [done|]).
Qed.

Lemma readLoop_sim reads : forall l c1 c2,
  calendar_ok c1 -> calendar_ok c2 -> calendar_sim c1 c2 ->
  exists c1' c2',
    readLoop reads l c1 = Done c1' /\ readLoop reads l c2 = Done c2'
    /\ calendar_sim c1' c2'.
Proof.
  induction reads as [|line rest IH]; intros l c1 c2 Hok1 Hok2 Hsim; cbn [readLoop].
  { by exists c1, c2. }
  destruct (String.length line =? 0).
  { destruct (2 <=? S (zeroLines l)); [by exists c1, c2 | by apply IH]. }
  destruct (processLine_sim line l c1 c2 Hok1 Hok2 Hsim)
    as (l' & c1' & c2' & emitted & -> & -> & Hok1' & Hok2' & Hsim').
  cbn [mbind outcome_bind]. by apply IH.
Qed.

(** X7: a fetch does not depend on what an earlier fetch left in the array.
    For two calendars with no date pending ([trigger] clear), however their
    arrays and counts differ, a successful GET of the same body stores the
    same Events in both, with the same count, flag and verdict; so
    fetching a body twice in a row gives the same list twice unless the
    body ends in an unresolved date marker. *)
Theorem X7_fetch_ignores_stale_events (reads : list string) (c1 c2 : Calendar) :
  calendar_ok c1 -> calendar_ok c2 ->
  trigger c1 = false -> trigger c2 = false ->
  exists c1' c2' ok,
    getIcs (GetReturned HTTP_CODE_OK reads) c1 = Done (c1', ok)
    /\ getIcs (GetReturned HTTP_CODE_OK reads) c2 = Done (c2', ok)
    /\ storedEvents c1' = storedEvents c2'
    /\ numberOfEvents c1' = numberOfEvents c2'
    /\ trigger c1' = trigger c2'.
Proof.
  intros [Hl1 Hn1] [Hl2 Hn2] Ht1 Ht2. cbn [getIcs].
  change (HTTP_CODE_OK <=? 0)%Z with false.
  change (negb (HTTP_CODE_OK =? HTTP_CODE_OK)%Z) with false. cbv iota.
  destruct (readLoop_sim reads (mkReadLoop "" false 0)
              (mkCalendar (events c1) 0 (trigger c1))
              (mkCalendar (events c2) 0 (trigger c2)))
    as (c1' & c2' & -> & -> & (Hn & Ht & Hst & _)).
  { split; cbn; [done | lia]. }
  { split; cbn; [done | lia]. }
  { unfold calendar_sim, storedEvents. cbn. rewrite Ht1, Ht2.
    split; [done|]. split; [done|]. split; [done|]. discriminate. }
  cbn [mbind outcome_bind]. rewrite Hn.
  destruct (numberOfEvents c2' =? 0); by eexists _, _, _.
Qed.

(** X7 at a fresh calendar and one that holds three Events of an earlier
    fetch. *)
Lemma X7_fetch_ignores_stale_events_witness :
  exists c1' c2' ok,
    getIcs (GetReturned HTTP_CODE_OK (sampleCalendar 2)) initialCalendar = Done (c1', ok)
    /\ getIcs (GetReturned HTTP_CODE_OK (sampleCalendar 2))
              (calendarOf [Event.mk PAPER 24 12 1; Event.mk BIO 24 12 8;
                           Event.mk PLASTIC 24 12 15]) = Done (c2', ok)
    /\ storedEvents c1' = storedEvents c2'
    /\ numberOfEvents c1' = numberOfEvents c2'
    /\ trigger c1' = trigger c2'.
Proof.
  refine (X7_fetch_ignores_stale_events (sampleCalendar 2) initialCalendar
            (calendarOf [Event.mk PAPER 24 12 1; Event.mk BIO 24 12 8;
                         Event.mk PLASTIC 24 12 15]) _ _ _ _).
  - split; [reflexivity | vm_compute; lia].
  - split; [reflexivity | vm_compute; lia].
  - reflexivity.
  - reflexivity.
Defined.

(** ** The read loop *)

Lemma readLoop_cons_empty line rest l c :
  String.length line = 0 ->
  readLoop (line :: rest) l c
  = if 2 <=? S (zeroLines l) then Done c
    else readLoop rest (mkReadLoop (oldLine l) (onlyDigitsInLine l) (S (zeroLines l))) c.
Proof. intros H. cbn [readLoop]. by rewrite H. Qed.

Lemma readLoop_cons_line line rest l c :
  String.length line <> 0 ->
  readLoop (line :: rest) l c
  = ('(l', c', _) ← processLine line l c; readLoop rest l' c').
Proof. intros H. cbn [readLoop]. by rewrite (proj2 (Nat.eqb_neq _ _) H). Qed.

(** X8: two consecutive reads of length zero end the body.  Whatever
    precedes them, everything that follows them is ignored: the read loop
    gives the result it gives for the reads before them. *)
Theorem X8_two_empty_reads_end_body (pre rest : list string) (l : ReadLoop)
    (c : Calendar) :
  readLoop (pre ++ "" :: "" :: rest) l c = readLoop pre l c.
Proof.
  revert l c. induction pre as [|line pre IH]; intros l c.
  - cbn [app]. rewrite readLoop_cons_empty by done.
    destruct (2 <=? S (zeroLines l)) eqn:Hz; [done|].
    rewrite readLoop_cons_empty by done. cbn [zeroLines].
    by destruct (zeroLines l).
  - cbn [app]. destruct (decide (String.length line = 0)) as [Hline|Hline].
    + rewrite !readLoop_cons_empty by done.
      destruct (2 <=? S (zeroLines l)); [done | apply IH].
    + rewrite !readLoop_cons_line by done.
      destruct (processLine line l c) as [[[l' c'] emitted]|]; [|done].
      cbn [mbind outcome_bind]. apply IH.
Qed.

Lemma processLine_zeroLines line old digits z z' c :
  processLine line (mkReadLoop old digits z) c
  = processLine line (mkReadLoop old digits z') c.
Proof. reflexivity. Qed.

Lemma processLine_resets_zeroLines line l c l' c' emitted :
  processLine line l c = Done (l', c', emitted) -> zeroLines l' = 0.
Proof.
  unfold processLine. destruct (negb (all_digits (String_trim line))).
  - intros H. apply bind_Done in H as ([c2 em] & _ & H). by injection H as <- _ _.
  - by intros [= <- _ _].
Qed.

(** X9: one read of length zero between two reads of non-zero length is
    skipped: the read loop gives the result it gives without it. *)
Theorem X9_single_empty_read_is_skipped (pre rest : list string) (prev line : string)
    (l : ReadLoop) (c : Calendar) :
  String.length prev <> 0 ->
  String.length line <> 0 ->
  readLoop (pre ++ prev :: "" :: line :: rest) l c
  = readLoop (pre ++ prev :: line :: rest) l c.
Proof.
  intros Hprev Hline. revert l c. induction pre as [|x pre IH]; intros l c.
  - cbn [app]. rewrite !(readLoop_cons_line prev) by done.
    destruct (processLine prev l c) as [[[l' c'] emitted]|] eqn:Hstep; [|done].
    cbn [mbind outcome_bind]. apply processLine_resets_zeroLines in Hstep.
    rewrite readLoop_cons_empty by done. rewrite Hstep. cbn [Nat.leb].
    rewrite !readLoop_cons_line by done. by destruct l'.
  - cbn [app]. destruct (decide (String.length x = 0)) as [Hx|Hx].
    + rewrite !readLoop_cons_empty by done.
      destruct (2 <=? S (zeroLines l)); [done | apply IH].
    + rewrite !readLoop_cons_line by done.
      destruct (processLine x l c) as [[[l' c'] emitted]|]; [|done].
      cbn [mbind outcome_bind]. apply IH.
Qed.

(** X9 at an empty read between a date line and its category line. *)
Lemma X9_single_empty_read_is_skipped_witness :
  readLoop ["BEGIN:VEVENT"; "DTSTART;VALUE=DATE:20250315"; ""; "SUMMARY:Restabfall";
            "END:VEVENT"] (mkReadLoop "" false 0) initialCalendar
  = readLoop ["BEGIN:VEVENT"; "DTSTART;VALUE=DATE:20250315"; "SUMMARY:Restabfall";
              "END:VEVENT"] (mkReadLoop "" false 0) initialCalendar.
Proof.
  refine (X9_single_empty_read_is_skipped ["BEGIN:VEVENT"]
            ["END:VEVENT"] "DTSTART;VALUE=DATE:20250315" "SUMMARY:Restabfall"
            (mkReadLoop "" false 0) initialCalendar _ _).
  - vm_compute. discriminate.
  - vm_compute. discriminate.
Defined.

Lemma all_digits_false_nonempty s : all_digits s = false -> String.eqb s "" = false.
Proof. by destruct s. Qed.

Lemma processLine_plain line l c :
  all_digits (String_trim line) = false ->
  onlyDigitsInLine l = false ->
  processLine line l c
  = (c' ← feed (pending l) c;
     Done (mkReadLoop (String_trim line) false 0, c', pending l)).
Proof.
  intros Hplain Hflag. unfold processLine, pending. rewrite Hplain, Hflag. cbn [negb].
  destruct (String.eqb (oldLine l) ""); cbn [negb feed mbind outcome_bind]; [done|].
  destruct (parseIcsLine (oldLine l) c) as [[c' out]|]; done.
Qed.

(** X10: without separator lines the read loop is the Event Extractor one
    line late.  When no read has length zero or is all digits after
    trimming, the loop calls [parseIcsLine] on the pending line and on the
    trimmed reads in order, except the last one: the last logical line of a
    body is never parsed. *)
Theorem X10_last_line_is_never_parsed (reads : list string) (l : ReadLoop)
    (c : Calendar) :
  Forall plainRead reads ->
  onlyDigitsInLine l = false ->
  readLoop reads l c = feed (removelast (pending l ++ map String_trim reads)) c.
Proof.
  intros Hall. revert l c.
  induction Hall as [|line rest [Hlen Hplain] _ IH]; intros l c Hflag.
  { cbn [map readLoop]. rewrite app_nil_r. unfold pending.
    by destruct (String.eqb (oldLine l) ""). }
  rewrite readLoop_cons_line by done.
  rewrite processLine_plain by done.
  assert (forall x xs, removelast (pending l ++ x :: xs)
                       = (pending l ++ removelast (x :: xs))%list) as Hrem.
  { intros x xs. unfold pending. by destruct (String.eqb (oldLine l) ""). }
  cbn [map]. rewrite Hrem, feed_app.
  destruct (feed (pending l) c) as [c'|]; [|done].
  cbn [mbind outcome_bind]. rewrite IH by done.
  unfold pending. cbn [oldLine]. by rewrite (all_digits_false_nonempty _ Hplain).
Qed.

(** X10 at a body that ends with the category line of its only event. *)
Lemma X10_last_line_is_never_parsed_witness :
  readLoop ["BEGIN:VEVENT"; "DTSTART;VALUE=DATE:20250315"; "SUMMARY:Restabfall"]
           (mkReadLoop "" false 0) initialCalendar
  = feed ["BEGIN:VEVENT"; "DTSTART;VALUE=DATE:20250315"] initialCalendar.
Proof.
  refine (X10_last_line_is_never_parsed
            ["BEGIN:VEVENT"; "DTSTART;VALUE=DATE:20250315"; "SUMMARY:Restabfall"]
            (mkReadLoop "" false 0) initialCalendar _ _).
  - repeat constructor; vm_compute; (discriminate || reflexivity).
  - reflexivity.
Defined.

(** X11: a separator line joins its neighbours.  When a read that is all
    digits after trimming (a blank line included) stands between two reads
    that are not, the loop parses the pending line, then the text of the
    read before the separator followed directly by the text of the read
    after it; the separator's own text is dropped and nothing stays
    pending. *)
Theorem X11_separator_joins_neighbours (before sep after : string) (rest : list string)
    (l : ReadLoop) (c : Calendar) :
  plainRead before ->
  String.length sep <> 0 ->
  all_digits (String_trim sep) = true ->
  plainRead after ->
  onlyDigitsInLine l = false ->
  readLoop (before :: sep :: after :: rest) l c
  = (c' ← feed (pending l ++ [String.append (String_trim before) (String_trim after)]) c;
     readLoop rest (mkReadLoop "" false 0) c').
Proof.
  intros [Hb Hbp] Hs Hsd [Ha Hap] Hflag.
  rewrite readLoop_cons_line by done. rewrite processLine_plain by done.
  rewrite feed_app.
  destruct (feed (pending l) c) as [c1|]; [|done]. cbn [mbind outcome_bind].
  rewrite readLoop_cons_line by done.
  unfold processLine at 1. rewrite Hsd. cbn [negb onlyDigitsInLine oldLine mbind outcome_bind].
  rewrite readLoop_cons_line by done.
  unfold processLine. rewrite Hap. cbn [negb onlyDigitsInLine oldLine].
  assert (String.eqb (String.append (String_trim before) (String_trim after)) "" = false)
    as ->.
  { apply all_digits_false_nonempty in Hbp. by destruct (String_trim before). }
  cbn [negb feed].
  destruct (parseIcsLine _ c1) as [[c2 out]|]; done.
Qed.

(** X11 at a date line cut in two by a blank line. *)
Lemma X11_separator_joins_neighbours_witness :
  readLoop ["DTSTART;VALUE=DA"; CR; "TE:20250316"; "SUMMARY:Bioabfall"; "END:VEVENT"]
           (mkReadLoop "BEGIN:VEVENT" false 0) initialCalendar
  = (c' ← feed ["BEGIN:VEVENT"; "DTSTART;VALUE=DATE:20250316"] initialCalendar;
     readLoop ["SUMMARY:Bioabfall"; "END:VEVENT"] (mkReadLoop "" false 0) c').
Proof.
  refine (X11_separator_joins_neighbours "DTSTART;VALUE=DA" CR "TE:20250316"
            ["SUMMARY:Bioabfall"; "END:VEVENT"]
            (mkReadLoop "BEGIN:VEVENT" false 0) initialCalendar _ _ _ _ _).
  - split; vm_compute; (discriminate || reflexivity).
  - vm_compute. discriminate.
  - reflexivity.
  - split; vm_compute; (discriminate || reflexivity).
  - reflexivity.
Defined.

(** ** The refresh *)

Lemma scanEvents_no_match c tT tN te :
  numberOfEvents c <= length (events c) ->
  Forall (fun ev => matchesDay tT tN ev = false) (storedEvents c) ->
  exists loc, scanEvents c tT tN te = Done (loc, te, 0).
Proof.
  intros Hn Hnone. rewrite scanEvents_scanList by done.
  destruct (scanList_no_match tT tN (storedEvents c) (Local.mk 0 0 0 false false) te 0 Hnone)
    as (nd & td & ->).
  eauto.
Qed.

(** X12: no match, dark strip.  When no stored Event is on either date the
    refresh leaves [todaysEvents] as it was, sets the count of today's
    events to zero and transmits black for every slot, except that slot 0
    is red after a failed fetch. *)
Theorem X12_no_match_clears_strip (ok : bool) (c : Calendar)
    (timeinfo timeinfoNextDay : tm) (d : Display) :
  numberOfEvents c <= length (events c) ->
  length (buffer (pixels d)) = numOfNeoPixels ->
  Forall (fun ev => matchesDay timeinfo timeinfoNextDay ev = false) (storedEvents c) ->
  exists d',
    refresh ok c timeinfo timeinfoNextDay d = Done d'
    /\ todaysEvents d' = todaysEvents d
    /\ numberOfTodaysEvents d' = 0
    /\ shown (pixels d')
       = [if ok then Color 0 0 0 else Color 255 0 0; Color 0 0 0; Color 0 0 0].
Proof.
  intros Hn Hbuf Hnone.
  destruct (scanEvents_no_match c timeinfo timeinfoNextDay (todaysEvents d) Hn Hnone)
    as [loc Hscan].
  exists (mkDisplay (todaysEvents d) 0 (commitPixels ok (clear (pixels d)))
                    (lastMonth d) (lastDay d) (firstRun d)).
  split.
  { eapply refresh_pixels; [exact Hscan | reflexivity]. }
  split; [done|]. split; [done|].
  unfold commitPixels, clear, show, setPixelColor. rewrite Hbuf. by destruct ok.
Qed.

(** X12 at a calendar whose only Event is two weeks away. *)
Lemma X12_no_match_clears_strip_witness :
  exists d',
    refresh false (calendarOf [Event.mk PAPER 25 4 2]) march15 march16 initialDisplay
    = Done d'
    /\ todaysEvents d' = todaysEvents initialDisplay
    /\ numberOfTodaysEvents d' = 0
    /\ shown (pixels d') = [Color 255 0 0; Color 0 0 0; Color 0 0 0].
Proof.
  refine (X12_no_match_clears_strip false (calendarOf [Event.mk PAPER 25 4 2])
            march15 march16 initialDisplay _ _ _).
  - vm_compute. lia.
  - reflexivity.
  - repeat constructor.
Defined.

Lemma colorOf_read (t : TrashType) :
  t <> COUNT ->
  array_read "TrashTypeRed" TrashTypeRed (TrashType_to_nat t) = Done (colorOf t).1.1
  /\ array_read "TrashTypeGreen" TrashTypeGreen (TrashType_to_nat t) = Done (colorOf t).1.2
  /\ array_read "TrashTypeBlue" TrashTypeBlue (TrashType_to_nat t) = Done (colorOf t).2.
Proof. intros Ht. by destruct t. Qed.

Lemma assignPixels_multi loc te n (px : Pixels) e0 e1 :
  1 < n ->
  te !! 0 = Some e0 -> te !! 1 = Some e1 ->
  TodaysEvent.type e0 <> COUNT -> TodaysEvent.type e1 <> COUNT ->
  length (buffer px) = numOfNeoPixels ->
  exists px',
    assignPixels loc te n px = Done px'
    /\ buffer px' = [Color 0 0 0; colorOf (TodaysEvent.type e0);
                     colorOf (TodaysEvent.type e1)].
Proof.
  intros Hn H0 H1 Ht0 Ht1 Hlen. unfold assignPixels.
  destruct (n =? 1) eqn:Hn1; [apply Nat.eqb_eq in Hn1; lia|].
  rewrite (proj2 (Nat.ltb_lt _ _) Hn).
  cbn [numOfNeoPixels Nat.sub seq forEach].
  rewrite (array_read_Done _ _ _ _ H0). cbn [mbind outcome_bind].
  destruct (colorOf_read _ Ht0) as (-> & -> & ->). cbn [mbind outcome_bind].
  rewrite (array_read_Done _ _ _ _ H1). cbn [mbind outcome_bind].
  destruct (colorOf_read _ Ht1) as (-> & -> & ->). cbn [mbind outcome_bind].
  eexists. split; [reflexivity|].
  destruct px as [buf sh k]. cbn [buffer] in Hlen.
  do 3 (destruct buf as [|? buf]; [done|]). destruct buf; [|done].
  cbn. by destruct (TodaysEvent.type e0), (TodaysEvent.type e1).
Qed.

(** X13: with two or more matches the strip shows the first two.  When
    the stored Events on either date are [m1], [m2] and up to three more,
    in scan order, the refresh counts them all, and transmits black (red
    after a failed fetch) for slot 0, the colour of [m1] for slot 1 and the
    colour of [m2] for slot 2; later matches are not shown. *)
Theorem X13_two_matches_fill_slots (ok : bool) (c : Calendar)
    (timeinfo timeinfoNextDay : tm) (d : Display) (m1 m2 : Event.t)
    (more : list Event.t) :
  numberOfEvents c <= length (events c) ->
  stored_types_ok c ->
  length (todaysEvents d) = TrashType_to_nat COUNT ->
  length (buffer (pixels d)) = numOfNeoPixels ->
  List.filter (matchesDay timeinfo timeinfoNextDay) (storedEvents c) = m1 :: m2 :: more ->
  length more <= 3 ->
  exists d',
    refresh ok c timeinfo timeinfoNextDay d = Done d'
    /\ numberOfTodaysEvents d' = 2 + length more
    /\ shown (pixels d')
       = [if ok then Color 0 0 0 else Color 255 0 0;
          colorOf (Event.type m1); colorOf (Event.type m2)].
Proof.
  intros Hn Hty Hte Hbuf Hfilter Hmore.
  assert (Event.type m1 <> COUNT /\ Event.type m2 <> COUNT) as [Ht1 Ht2].
  { unfold stored_types_ok in Hty. rewrite Forall_forall in Hty.
    split; apply Hty; eapply (proj1 (filter_In _ _ _));
      rewrite Hfilter; simpl; auto. }
  destruct (scanList_entries timeinfo timeinfoNextDay (storedEvents c)
              (Local.mk 0 0 0 false false) (todaysEvents d) 0 Hty)
    as (loc & te & Hscan & Hlen & Htake).
  { rewrite Hfilter, Hte. simpl. lia. }
  rewrite <- scanEvents_scanList in Hscan by done.
  rewrite Hfilter in Hscan, Htake. cbn [Nat.add length take app map] in Hscan, Htake.
  assert (te !! 0 = Some (entryOf timeinfoNextDay m1)
          /\ te !! 1 = Some (entryOf timeinfoNextDay m2)) as [H0 H1].
  { split.
    - rewrite <- (lookup_take_lt te (S (S (length more))) 0) by lia. by rewrite Htake.
    - rewrite <- (lookup_take_lt te (S (S (length more))) 1) by lia. by rewrite Htake. }
  destruct (assignPixels_multi loc te (S (S (length more))) (pixels d) _ _
              ltac:(lia) H0 H1 Ht1 Ht2 Hbuf) as (px & Hpx & Hbufpx).
  exists (mkDisplay te (S (S (length more))) (commitPixels ok px)
                    (lastMonth d) (lastDay d) (firstRun d)).
  split; [eapply refresh_pixels; eassumption|].
  split; [done|].
  unfold commitPixels, show, setPixelColor.
  destruct ok; cbn [negb pixels shown buffer]; by rewrite Hbufpx.
Qed.

(** X13 at three matches: Bio today, Plastic and Paper tomorrow. *)
Lemma X13_two_matches_fill_slots_witness :
  exists d',
    refresh true
            (calendarOf [Event.mk BIO 25 3 15; Event.mk PLASTIC 25 3 16;
                         Event.mk PAPER 25 3 16])
            march15 march16 initialDisplay = Done d'
    /\ numberOfTodaysEvents d' = 3
    /\ shown (pixels d') = [Color 0 0 0; Color 150 20 0; Color 200 200 0].
Proof.
  refine (X13_two_matches_fill_slots true
            (calendarOf [Event.mk BIO 25 3 15; Event.mk PLASTIC 25 3 16;
                         Event.mk PAPER 25 3 16])
            march15 march16 initialDisplay
            (Event.mk BIO 25 3 15) (Event.mk PLASTIC 25 3 16) [Event.mk PAPER 25 3 16]
            _ _ _ _ _ _).
  - vm_compute. lia.
  - vm_compute. repeat constructor; discriminate.
  - reflexivity.
  - reflexivity.
  - reflexivity.
  - simpl. lia.
Defined.

Lemma matchEvent_overflow tT tN ev loc te n :
  matchesDay tT tN ev = true ->
  length te <= n ->
  matchEvent tT tN ev (loc, te, n) = OutOfBounds "todaysEvents" n.
Proof.
  unfold matchesDay, matchEvent. intros H Hn. rewrite H.
  by rewrite array_modify_OutOfBounds.
Qed.

Lemma scanList_overflow tT tN stored : forall loc te n,
  Forall (fun ev => Event.type ev <> COUNT) stored ->
  n <= length te ->
  length te < n + length (List.filter (matchesDay tT tN) stored) ->
  scanList tT tN stored (loc, te, n) = OutOfBounds "todaysEvents" (length te).
Proof.
  induction stored as [|ev rest IH]; intros loc te n Hty Hn Hover.
  { simpl in Hover. lia. }
  apply Forall_cons_iff in Hty as [Hev Hrest].
  cbn [scanList List.filter] in *.
  destruct (matchesDay tT tN ev) eqn:Hm.
  - cbn [length] in Hover.
    destruct (decide (n = length te)) as [->|Hne].
    + by rewrite matchEvent_overflow.
    + rewrite matchEvent_hit by (done || lia). cbn [mbind outcome_bind].
      rewrite IH; rewrite ?length_insert; (done || lia).
  - rewrite matchEvent_miss by done. cbn [mbind outcome_bind].
    by apply IH.
Qed.

(** X14: the sixth match leaves [todaysEvents].  The scan has no bound on
    the number of matches: when more than 5 stored Events are on either
    date, the refresh writes [todaysEvents[5]], one past the end of the
    array, before anything is sent to the strip. *)
Theorem X14_sixth_match_overflows (ok : bool) (c : Calendar)
    (timeinfo timeinfoNextDay : tm) (d : Display) :
  numberOfEvents c <= length (events c) ->
  stored_types_ok c ->
  length (todaysEvents d) = TrashType_to_nat COUNT ->
  TrashType_to_nat COUNT
    < length (List.filter (matchesDay timeinfo timeinfoNextDay) (storedEvents c)) ->
  refresh ok c timeinfo timeinfoNextDay d = OutOfBounds "todaysEvents" 5.
Proof.
  intros Hn Hty Hte Hover. unfold refresh.
  rewrite scanEvents_scanList by done.
  rewrite (scanList_overflow timeinfo timeinfoNextDay (storedEvents c)) by (done || lia).
  by rewrite Hte.
Qed.

(** X14 at six Events on 16 March. *)
Lemma X14_sixth_match_overflows_witness :
  refresh true
          (calendarOf [Event.mk RESIDUAL 25 3 16; Event.mk BIO 25 3 16;
                       Event.mk PLASTIC 25 3 16; Event.mk PAPER 25 3 16;
                       Event.mk CHRISTMAS_TREE 25 3 16; Event.mk BIO 25 3 16])
          march15 march16 initialDisplay
  = OutOfBounds "todaysEvents" 5.
Proof.
  refine (X14_sixth_match_overflows true
            (calendarOf [Event.mk RESIDUAL 25 3 16; Event.mk BIO 25 3 16;
                         Event.mk PLASTIC 25 3 16; Event.mk PAPER 25 3 16;
                         Event.mk CHRISTMAS_TREE 25 3 16; Event.mk BIO 25 3 16])
            march15 march16 initialDisplay _ _ _ _).
  - vm_compute. lia.
  - vm_compute. repeat constructor; discriminate.
  - reflexivity.
  - vm_compute. lia.
Defined.

(** ** Failure handling and the retry loop *)

Lemma paint_all (col : RGB) (px : Pixels) :
  length (buffer px) = numOfNeoPixels ->
  foldl (fun px p => setPixelColor p col px) px (seq 0 numOfNeoPixels)
  = mkPixels [col; col; col] (shown px) (shows px).
Proof.
  intros Hlen. destruct px as [buf sh k]. cbn [buffer] in Hlen.
  do 3 (destruct buf as [|? buf]; [done|]). by destruct buf.
Qed.

Lemma blink_result k : forall toggle px,
  length (buffer px) = numOfNeoPixels ->
  blink (S k) toggle px
  = (let col := Color (255 * Z.b2z (xorb toggle (Nat.odd (S k)))) 0 0 in
     mkPixels [col; col; col] [col; col; col] (shows px + S k)).
Proof.
  induction k as [|k IH]; intros toggle px Hlen.
  - cbn [blink]. rewrite paint_all by done. cbn. rewrite Nat.add_1_r.
    by destruct toggle.
  - change (blink (S (S k)) toggle px)
      with (blink (S k) (negb toggle)
              (show (foldl (fun px p => setPixelColor p
                                          (Color (255 * Z.b2z (negb toggle)) 0 0) px)
                           px (seq 0 numOfNeoPixels)))).
    rewrite paint_all by done. rewrite IH by done. cbv zeta. cbn [shows show].
    rewrite (Nat.odd_succ (S k)), <- Nat.negb_odd.
    replace (S (shows px) + S k) with (shows px + S (S k)) by lia.
    by destruct toggle, (Nat.odd (S k)).
Qed.

Lemma handleFailure_result (c : Calendar) (px : Pixels) :
  length (buffer px) = numOfNeoPixels ->
  handleFailure c px
  = if 0 <? numberOfEvents c then (px, true)
    else (mkPixels [Color 255 0 0; Color 255 0 0; Color 255 0 0]
                   [Color 255 0 0; Color 255 0 0; Color 255 0 0]
                   (shows px + 600),
          false).
Proof.
  intros Hlen. unfold handleFailure. destruct (0 <? numberOfEvents c); [done|].
  change 600 with (S 599). by rewrite blink_result.
Qed.

(** X15: what [handleFailure] does to the strip.  With at least one stored
    Event it returns true at once and leaves the strip alone; with none it
    blinks for 600 rounds, transmits 600 times, leaves all three pixels red
    and returns false. *)
Theorem X15_handleFailure_outcome (c : Calendar) (px : Pixels) :
  length (buffer px) = numOfNeoPixels ->
  handleFailure c px
  = if 0 <? numberOfEvents c then (px, true)
    else (mkPixels [Color 255 0 0; Color 255 0 0; Color 255 0 0]
                   [Color 255 0 0; Color 255 0 0; Color 255 0 0]
                   (shows px + 600),
          false).
Proof. apply handleFailure_result. Qed.

(** X15 at program start: no Event stored, strip as [setup] left it. *)
Lemma X15_handleFailure_outcome_witness :
  handleFailure initialCalendar initialPixels
  = (mkPixels [Color 255 0 0; Color 255 0 0; Color 255 0 0]
              [Color 255 0 0; Color 255 0 0; Color 255 0 0] 601,
     false).
Proof. exact (X15_handleFailure_outcome initialCalendar initialPixels eq_refl). Defined.

Lemma retryIcs_unfold attempts success c px :
  retryIcs attempts success c px
  = if success then Done (Returned c px true)
    else
      let '(px, nonCriticalFailure) := handleFailure c px in
      if nonCriticalFailure then Done (Returned c px false)
      else
        match attempts with
        | [] => Done (StillRetrying c px)
        | http :: rest =>
            '(c, success) ← getIcs http c;
            retryIcs rest success c px
        end.
Proof. by destruct attempts. Qed.

Lemma retryIcs_returned attempts : forall success c px c' px' b,
  calendar_ok c ->
  (success = true -> 0 < numberOfEvents c) ->
  retryIcs attempts success c px = Done (Returned c' px' b) ->
  calendar_ok c' /\ 0 < numberOfEvents c'.
Proof.
  induction attempts as [|http rest IH]; intros success c px c' px' b Hc Hs;
    rewrite retryIcs_unfold; destruct success.
  - intros [= <- _ _]. auto.
  - unfold handleFailure. destruct (0 <? numberOfEvents c) eqn:Hn; [|done].
    intros [= <- _ _]. apply Nat.ltb_lt in Hn. auto.
  - intros [= <- _ _]. auto.
  - unfold handleFailure. destruct (0 <? numberOfEvents c) eqn:Hn.
    { intros [= <- _ _]. apply Nat.ltb_lt in Hn. auto. }
    destruct (getIcs_ok http c Hc) as (c1 & ok & Hget & Hc1). rewrite Hget.
    cbn [mbind outcome_bind]. apply IH; [done|].
    intros ->. apply getIcs_true in Hget. lia.
Qed.

Lemma updateIcs_returned attempts c px c' px' b :
  calendar_ok c ->
  updateIcs attempts c px = Done (Returned c' px' b) ->
  calendar_ok c' /\ 0 < numberOfEvents c'.
Proof.
  intros Hc. destruct attempts as [|http rest]; [done|]. cbn [updateIcs].
  destruct (getIcs_ok http c Hc) as (c1 & ok & Hget & Hc1). rewrite Hget.
  cbn [mbind outcome_bind]. intros Hrun.
  apply retryIcs_returned in Hrun; [done|done|].
  intros ->. apply getIcs_true in Hget. lia.
Qed.

(** X16: [updateIcs] returns only with Events in store.  From a calendar
    within its array, whenever the retry loop returns (with true or with
    false) the calendar is within its array and holds between 1 and 100
    Events; a result of true means the last fetch succeeded, a result of
    false that Events were still stored after a failed one. *)
Theorem X16_updateIcs_returns_with_events (attempts : list HttpExchange) (c : Calendar)
    (px : Pixels) (c' : Calendar) (px' : Pixels) (b : bool) :
  calendar_ok c ->
  updateIcs attempts c px = Done (Returned c' px' b) ->
  calendar_ok c' /\ 1 <= numberOfEvents c' <= maxNumberOfEvents.
Proof.
  intros Hc Hrun. apply updateIcs_returned in Hrun as [[Hlen Hn] Hpos]; [|done].
  repeat split; (done || lia).
Qed.

(** X16 at a start-up whose first fetch finds no events and whose second
    finds two. *)
Lemma X16_updateIcs_returns_with_events_witness :
  exists c' px',
    updateIcs [GetReturned HTTP_CODE_OK ["BEGIN:VCALENDAR"; "END:VCALENDAR"];
               GetReturned HTTP_CODE_OK (sampleCalendar 2)]
              initialCalendar initialPixels
    = Done (Returned c' px' true)
    /\ calendar_ok c' /\ 1 <= numberOfEvents c' <= maxNumberOfEvents.
Proof.
  eexists _, _. split; [vm_compute; reflexivity|].
  refine (X16_updateIcs_returns_with_events
            [GetReturned HTTP_CODE_OK ["BEGIN:VCALENDAR"; "END:VCALENDAR"];
             GetReturned HTTP_CODE_OK (sampleCalendar 2)]
            initialCalendar initialPixels _ _ true _ _).
  - split; [reflexivity | vm_compute; lia].
  - vm_compute. reflexivity.
Defined.

(** X17: a failed fetch with Events in store is not retried.  When the
    fetch fails before the body and at least one Event is stored,
    [updateIcs] returns false at once: the calendar and the strip are as
    before, no wait, no further attempt. *)
Theorem X17_transient_failure_keeps_calendar (http : HttpExchange)
    (rest : list HttpExchange) (c : Calendar) (px : Pixels) :
  failsBeforeBody http ->
  0 < numberOfEvents c ->
  updateIcs (http :: rest) c px = Done (Returned c px false).
Proof.
  intros Hfail Hn. cbn [updateIcs]. rewrite getIcs_failsBeforeBody by done.
  cbn [mbind outcome_bind]. rewrite retryIcs_unfold. unfold handleFailure.
  by rewrite (proj2 (Nat.ltb_lt _ _) Hn).
Qed.

(** X17 at a 503 response while two Events are stored. *)
Lemma X17_transient_failure_keeps_calendar_witness :
  updateIcs [GetReturned 503 []; GetReturned HTTP_CODE_OK (sampleCalendar 2)]
            (calendarOf [Event.mk PAPER 25 3 1; Event.mk BIO 25 3 8]) initialPixels
  = Done (Returned (calendarOf [Event.mk PAPER 25 3 1; Event.mk BIO 25 3 8])
                   initialPixels false).
Proof.
  refine (X17_transient_failure_keeps_calendar (GetReturned 503 [])
            [GetReturned HTTP_CODE_OK (sampleCalendar 2)]
            (calendarOf [Event.mk PAPER 25 3 1; Event.mk BIO 25 3 8]) initialPixels _ _).
  - apply fails_status. vm_compute. discriminate.
  - vm_compute. lia.
Defined.

Lemma retryIcs_retrying attempts : forall success c px c' px',
  calendar_ok c ->
  (success = true -> 0 < numberOfEvents c) ->
  length (buffer px) = numOfNeoPixels ->
  retryIcs attempts success c px = Done (StillRetrying c' px') ->
  numberOfEvents c' = 0
  /\ shows px' = shows px + 600 * S (length attempts)
  /\ buffer px' = [Color 255 0 0; Color 255 0 0; Color 255 0 0].
Proof.
  induction attempts as [|http rest IH]; intros success c px c' px' Hc Hs Hlen;
    rewrite retryIcs_unfold; destruct success; try done;
    rewrite handleFailure_result by done;
    destruct (0 <? numberOfEvents c) eqn:Hn; try done; apply Nat.ltb_ge in Hn.
  - intros [= <- <-]. cbn [shows buffer length]. repeat split; (done || lia).
  - destruct (getIcs_ok http c Hc) as (c1 & ok & Hget & Hc1). rewrite Hget.
    cbn [mbind outcome_bind]. intros Hrun.
    apply IH in Hrun as (H0 & Hshows & Hbuf); [|done| |done].
    + cbn [shows length] in *. repeat split; (done || lia).
    + intros ->. apply getIcs_true in Hget. lia.
Qed.

(** X18: as long as no Event is stored the retry loop does not return.
    When [updateIcs] has used up a non-empty list of fetch attempts
    without returning, no Event is stored, every attempt was followed by
    the 600-round red blink, and the strip is left all red. *)
Theorem X18_updateIcs_keeps_retrying (attempts : list HttpExchange) (c : Calendar)
    (px : Pixels) (c' : Calendar) (px' : Pixels) :
  calendar_ok c ->
  length (buffer px) = numOfNeoPixels ->
  attempts <> [] ->
  updateIcs attempts c px = Done (StillRetrying c' px') ->
  numberOfEvents c' = 0
  /\ shows px' = shows px + 600 * length attempts
  /\ buffer px' = [Color 255 0 0; Color 255 0 0; Color 255 0 0].
Proof.
  intros Hc Hlen Hne. destruct attempts as [|http rest]; [done|]. cbn [updateIcs].
  destruct (getIcs_ok http c Hc) as (c1 & ok & Hget & Hc1). rewrite Hget.
  cbn [mbind outcome_bind]. intros Hrun.
  apply retryIcs_retrying in Hrun; [done|done| |done].
  intros ->. apply getIcs_true in Hget. lia.
Qed.

(** X18 at two attempts, a refused connection and a calendar without
    events. *)
Lemma X18_updateIcs_keeps_retrying_witness :
  exists c' px',
    updateIcs [BeginFailed; GetReturned HTTP_CODE_OK ["BEGIN:VCALENDAR"; "END:VCALENDAR"]]
              initialCalendar initialPixels
    = Done (StillRetrying c' px')
    /\ numberOfEvents c' = 0
    /\ shows px' = shows initialPixels + 600 * 2
    /\ buffer px' = [Color 255 0 0; Color 255 0 0; Color 255 0 0].
Proof.
  eexists _, _. split; [vm_compute; reflexivity|].
  refine (X18_updateIcs_keeps_retrying
            [BeginFailed; GetReturned HTTP_CODE_OK ["BEGIN:VCALENDAR"; "END:VCALENDAR"]]
            initialCalendar initialPixels _ _ _ _ _ _).
  - split; [reflexivity | vm_compute; lia].
  - reflexivity.
  - discriminate.
  - vm_compute. reflexivity.
Defined.

(** ** The main loop *)

Lemma loopUpdateIcs_done attempts c d s' c' d' :
  calendar_ok c ->
  loopUpdateIcs attempts c d = Done (LoopDone s' c' d') ->
  Loop.firstRun s' = false /\ calendar_ok c' /\ 0 < numberOfEvents c'.
Proof.
  intros Hc. unfold loopUpdateIcs. intros H.
  apply bind_Done in H as ([c1 px1 ok|c1 px1] & Hup & H); [|done].
  injection H as <- <- <-. apply updateIcs_returned in Hup as [? ?]; done.
Qed.

(** X19: [updateLeds] never runs on an empty calendar.  If no Event was
    stored only before the first pass, then every pass of [loop] that
    completes is made of three steps: the initial [updateIcs] (first pass
    only), which returns a calendar [c1], the strip [px1] and the verdict
    [ok]; the call of [updateLeds] on exactly this calendar, strip and
    verdict, where [c1] holds at least one Event; and the rest of the pass
    on the display and the month flag this call returned.  At the end of
    the pass [firstRun] is cleared and the calendar is within its array and
    still holds at least one Event. *)
Theorem X19_loop_keeps_events (attemptsFirst attemptsAfter : list HttpExchange)
    (clock : ClockReading) (s : Loop.t) (c : Calendar) (d : Display)
    (s' : Loop.t) (c' : Calendar) (d' : Display) :
  calendar_ok c ->
  (Loop.firstRun s = false -> 0 < numberOfEvents c) ->
  loop attemptsFirst attemptsAfter clock s c d = Done (LoopDone s' c' d') ->
  Loop.firstRun s' = false
  /\ calendar_ok c'
  /\ 0 < numberOfEvents c'
  /\ exists c1 px1 ok d1 newMonth,
       (if Loop.firstRun s then updateIcs attemptsFirst c (pixels d)
        else Done (Returned c (pixels d) (Loop.success s)))
       = Done (Returned c1 px1 ok)
       /\ calendar_ok c1
       /\ 0 < numberOfEvents c1
       /\ updateLeds ok clock c1 (setPixels px1 d) = Done (d1, newMonth)
       /\ loopAfterLeds attemptsAfter newMonth ok c1 d1 = Done (LoopDone s' c' d').
Proof.
  intros Hc Hinv. unfold loop. intros H.
  apply bind_Done in H as (r & Hr & H).
  assert (exists c1 px1 ok, r = Returned c1 px1 ok
                            /\ calendar_ok c1 /\ 0 < numberOfEvents c1)
    as (c1 & px1 & ok & -> & Hc1 & Hpos1).
  { destruct (Loop.firstRun s).
    - destruct r as [c1 px1 ok|c1 px1]; [|done].
      apply updateIcs_returned in Hr as [? ?]; [|done]. by exists c1, px1, ok.
    - injection Hr as <-. exists c, (pixels d), (Loop.success s). auto. }
  apply bind_Done in H as ([d1 newMonth] & Hleds & H).
  assert (Loop.firstRun s' = false /\ calendar_ok c' /\ 0 < numberOfEvents c')
    as (Hf & Hc' & Hpos').
  { unfold loopAfterLeds in H. destruct newMonth.
    - by eapply loopUpdateIcs_done.
    - destruct (negb ok); [by eapply loopUpdateIcs_done|].
      by injection H as <- <- <-. }
  split; [done|]. split; [done|]. split; [done|].
  exists c1, px1, ok, d1, newMonth.
  split; [done|]. split; [done|]. split; [done|]. split; done.
Qed.

(** X19 at the first pass of [loop] on 15 March 2025 with a calendar of
    two events: the calendar handed to [updateLeds] is the fetched one. *)
Lemma X19_loop_keeps_events_witness :
  exists s' c' d',
    loop [GetReturned HTTP_CODE_OK (sampleCalendar 2)] []
         (mkClockReading true march15 march16)
         (Loop.mk true false) initialCalendar initialDisplay
    = Done (LoopDone s' c' d')
    /\ Loop.firstRun s' = false
    /\ calendar_ok c'
    /\ 0 < numberOfEvents c'
    /\ exists c1 px1 ok d1 newMonth,
         updateIcs [GetReturned HTTP_CODE_OK (sampleCalendar 2)] initialCalendar
                   (pixels initialDisplay)
         = Done (Returned c1 px1 ok)
         /\ calendar_ok c1
         /\ 0 < numberOfEvents c1
         /\ updateLeds ok (mkClockReading true march15 march16) c1
                       (setPixels px1 initialDisplay) = Done (d1, newMonth)
         /\ loopAfterLeds [] newMonth ok c1 d1 = Done (LoopDone s' c' d').
Proof.
  eexists _, _, _. split; [vm_compute; reflexivity|].
  refine (X19_loop_keeps_events [GetReturned HTTP_CODE_OK (sampleCalendar 2)] []
            (mkClockReading true march15 march16)
            (Loop.mk true false) initialCalendar initialDisplay _ _ _ _ _ _).
  - split; [reflexivity | vm_compute; lia].
  - discriminate.
  - vm_compute. reflexivity.
Defined.

(** ** The rollover over many ticks *)

(** X20: every tick with a valid clock transmits.  [updateLeds] never
    clears its [firstRun], so from a display with [firstRun] set (as at
    program start) a run of ticks whose clock readings all succeed calls
    [pixels.show()] once per tick, whatever the dates are, and [firstRun]
    is still set afterwards. *)
Theorem X20_every_tick_transmits (inputs : list (bool * ClockReading)) (c : Calendar)
    (d d' : Display) :
  firstRun d = true ->
  Forall (fun i => getLocalTime i.2 = true) inputs ->
  ticks inputs c d = Done d' ->
  shows (pixels d') = shows (pixels d) + length inputs /\ firstRun d' = true.
Proof.
  intros Hfirst Hall. revert d Hfirst.
  induction Hall as [|[ok clock] rest Hclock _ IH]; intros d Hfirst Hrun.
  { injection Hrun as <-. cbn [length]. auto with lia. }
  cbn [ticks] in Hrun. apply bind_Done in Hrun as ([d1 nm] & Hstep & Hrun).
  apply updateLeds_always_shows in Hstep as [Hshows Hfirst1]; [|done|done].
  apply IH in Hrun as [Hshows' Hfirst']; [|done].
  cbn [length]. split; [lia | done].
Qed.

(** X20 at three ticks on the same day. *)
Lemma X20_every_tick_transmits_witness :
  exists d',
    ticks [(true, mkClockReading true march15 march16);
           (true, mkClockReading true march15 march16);
           (true, mkClockReading true march15 march16)]
          (calendarOf [Event.mk PAPER 25 4 2]) initialDisplay = Done d'
    /\ shows (pixels d') = shows (pixels initialDisplay) + 3
    /\ firstRun d' = true.
Proof.
  eexists. split; [vm_compute; reflexivity|].
  refine (X20_every_tick_transmits
            [(true, mkClockReading true march15 march16);
             (true, mkClockReading true march15 march16);
             (true, mkClockReading true march15 march16)]
            (calendarOf [Event.mk PAPER 25 4 2]) initialDisplay _ _ _ _).
  - reflexivity.
  - repeat constructor.
  - vm_compute. reflexivity.
Defined.

(** ** replaceYearInUrl *)

Lemma year_string_length (y : Z) :
  (0 <= y <= 1890)%Z -> String.length (String_of_int (y - 1900)) <> 2.
Proof.
  intros Hy.
  assert (forallb (fun i => negb (String.length (String_of_int (Z.of_nat i - 1900)) =? 2))
                  (seq 0 1891) = true) as Hall by (vm_compute; reflexivity).
  rewrite forallb_forall in Hall.
  specialize (Hall (Z.to_nat y)). rewrite Z2Nat.id in Hall by lia.
  apply negb_true_iff, Nat.eqb_neq in Hall; [done|].
  apply in_seq. lia.
Qed.

(** X21: the year in the URL is never replaced in this millennium.
    [replaceYearInUrl] formats [tm_year - 1900], and [tm_year] already
    counts from 1900: for every year from 1900 to 3790 ([tm_year] 0 to
    1890) the string is not two characters long, so a URL with ".ics" at
    offset 2 or later is returned unchanged. *)
Theorem X21_year_is_not_replaced (url : string) (timeinfo : tm) (k : nat) :
  strstr url ".ics" = Some k ->
  2 <= k ->
  (0 <= tm_year timeinfo <= 1890)%Z ->
  replaceYearInUrl url (Some timeinfo) = Some url.
Proof.
  intros Hk Hk2 Hy. unfold replaceYearInUrl. rewrite Hk.
  destruct (k <? 2) eqn:Hlt; [apply Nat.ltb_lt in Hlt; lia|].
  pose proof (year_string_length _ Hy) as Hlen.
  by rewrite (proj2 (Nat.eqb_neq _ _) Hlen).
Qed.

(** X21 at a calendar URL with the year 24, read on 15 March 2025. *)
Lemma X21_year_is_not_replaced_witness :
  replaceYearInUrl "https://example.org/abfuhr24.ics" (Some march15)
  = Some "https://example.org/abfuhr24.ics".
Proof.
  refine (X21_year_is_not_replaced "https://example.org/abfuhr24.ics" march15 28 _ _ _).
  - vm_compute. reflexivity.
  - lia.
  - vm_compute. split; discriminate.
Defined.

(** ** Lines the Event Extractor ignores *)

(** X22: without a pending date only date lines count.  While [trigger] is
    clear, a line that does not contain the date marker (a category line
    with no date before it, or any other calendar line) changes nothing:
    the lines after it are parsed as if it had not been there. *)
Theorem X22_orphan_line_is_ignored (line : string) (rest : list string) (c : Calendar) :
  trigger c = false ->
  contains line eventTrigger = false ->
  feed (line :: rest) c = feed rest c.
Proof.
  intros Ht Hnd. cbn [feed].
  destruct (decide (maxNumberOfEvents <= numberOfEvents c)) as [Hfull|Hfree].
  - by rewrite parseIcsLine_full.
  - rewrite parseIcsLine_other; [done | lia | done | by rewrite Ht].
Qed.

(** X22 at a category line that opens the stream. *)
Lemma X22_orphan_line_is_ignored_witness :
  feed ["SUMMARY:Bioabfall"; "DTSTART;VALUE=DATE:20250315"; "SUMMARY:Restabfall"]
       initialCalendar
  = feed ["DTSTART;VALUE=DATE:20250315"; "SUMMARY:Restabfall"] initialCalendar.
Proof.
  refine (X22_orphan_line_is_ignored "SUMMARY:Bioabfall"
            ["DTSTART;VALUE=DATE:20250315"; "SUMMARY:Restabfall"] initialCalendar _ _).
  - reflexivity.
  - vm_compute. reflexivity.
Defined.

(** ** The month rollover *)

(** X23: the month that is compared is the one of the next day.  Of two
    consecutive calls of [updateLeds] with a valid clock, the second
    reports a new month exactly when the month [localtime] stored for its
    next day differs from the month it stored for the next day of the
    first call; the month of the current day plays no part.  A new month is
    therefore reported on the last day of the old one. *)
Theorem X23_new_month_uses_next_day (ok1 ok2 : bool) (clock1 clock2 : ClockReading)
    (c1 c2 : Calendar) (d d1 d2 : Display) (newMonth1 newMonth2 : bool) :
  firstRun d = true ->
  getLocalTime clock1 = true ->
  getLocalTime clock2 = true ->
  updateLeds ok1 clock1 c1 d = Done (d1, newMonth1) ->
  updateLeds ok2 clock2 c2 d1 = Done (d2, newMonth2) ->
  newMonth2 = negb (tm_mon (localtime_nextDay clock1) =? tm_mon (localtime_nextDay clock2))%Z
  /\ lastMonth d2 = Some (tm_mon (localtime_nextDay clock2))
  /\ lastDay d2 = Some (tm_mday (localtime_nextDay clock2)).
Proof.
  intros Hfirst Hclock1 Hclock2 Hrun1 Hrun2.
  pose proof (updateLeds_firstRun _ _ _ _ _ _ Hrun1) as Hfirst1. rewrite Hfirst in Hfirst1.
  rewrite updateLeds_runs_refresh in Hrun1 by done.
  apply bind_Done in Hrun1 as (r1 & _ & Hrun1). injection Hrun1 as <- _.
  rewrite updateLeds_runs_refresh in Hrun2 by done.
  apply bind_Done in Hrun2 as (r2 & _ & Hrun2). injection Hrun2 as <- <-.
  done.
Qed.

(** X23 at ticks on 30 and 31 March 2025: the second reports the new
    month. *)
Lemma X23_new_month_uses_next_day_witness :
  exists d1 d2,
    updateLeds true (mkClockReading true (mk_tm 125 2 30) (mk_tm 125 2 31))
               (calendarOf [Event.mk PAPER 25 4 2]) initialDisplay = Done (d1, false)
    /\ updateLeds true (mkClockReading true (mk_tm 125 2 31) (mk_tm 125 3 1))
                  (calendarOf [Event.mk PAPER 25 4 2]) d1 = Done (d2, true)
    /\ lastMonth d2 = Some 3%Z
    /\ lastDay d2 = Some 1%Z.
Proof.
  eexists _, _. split; [vm_compute; reflexivity|]. split; [vm_compute; reflexivity|].
  refine (proj2 (X23_new_month_uses_next_day true true
                   (mkClockReading true (mk_tm 125 2 30) (mk_tm 125 2 31))
                   (mkClockReading true (mk_tm 125 2 31) (mk_tm 125 3 1))
                   (calendarOf [Event.mk PAPER 25 4 2]) (calendarOf [Event.mk PAPER 25 4 2])
                   initialDisplay _ _ false true _ _ _ _ _)).
  - reflexivity.
  - reflexivity.
  - reflexivity.
  - vm_compute. reflexivity.
  - vm_compute. reflexivity.
Defined.
